(** * Stockr: the data path of the dashboard and of the export scripts

    A shallow embedding of [dosc.py] (the Streamlit dashboard) and of
    [get_stock_data.py] (the two batch export scripts).

    Prices are IEEE-754 binary64 numbers, as in a pandas [float64] column; they
    are modelled with Rocq's primitive floats, so every arithmetic step rounds
    as the program's does and a missing value is [nan].  Dates are whole days,
    counted from 1970-01-01.  Volumes are integer share counts. *)

From Stdlib Require Import ZArith Ascii String List Sorted Bool Lia Uint63 Floats.
Import ListNotations.

Open Scope Z_scope.

(* ================================================================== *)
(** * pandas Series of float64 *)

Module Series.

Definition zip_with {A B C} (f : A -> B -> C) (xs : list A) (ys : list B) : list C :=
  map (fun p => f (fst p) (snd p)) (combine xs ys).

(** [s.shift(1)]: every value moves one position down, the first slot is
    missing, the last value falls off. *)
Definition shift (xs : list float) : list float :=
  firstn (length xs) (nan :: xs).

(** [s.ffill()]: a missing value takes the last value seen before it. *)
Fixpoint ffill_from (last : float) (xs : list float) : list float :=
  match xs with
  | [] => []
  | x :: rest =>
      let v := if is_nan x then last else x in
      v :: ffill_from v rest
  end.

Definition ffill (xs : list float) : list float := ffill_from nan xs.

(** The series [pct_change] divides: the series itself or, with the padding
    fill method that was the default before pandas 3, the forward-filled one. *)
Definition filled (pad : bool) (xs : list float) : list float :=
  if pad then ffill xs else xs.

(** [s.pct_change()] is [data / data.shift(1) - 1]. *)
Definition pct_change (pad : bool) (xs : list float) : list float :=
  let data := filled pad xs in
  zip_with (fun a b => (a / b - 1)%float) data (shift data).

(** [s * 100] *)
Definition times100 (xs : list float) : list float :=
  map (fun x => (x * 100)%float) xs.

(** The same computation as one pass that carries the previous value. *)
Fixpoint pct_scan (pad : bool) (prev : float) (xs : list float) : list float :=
  match xs with
  | [] => []
  | x :: rest =>
      let cur := if pad && is_nan x then prev else x in
      (cur / prev - 1)%float :: pct_scan pad cur rest
  end.

End Series.

(* ================================================================== *)
(** * The calendar behind month-start resampling *)

Module Calendar.

(** Year, month and day of the month of a day count (proleptic Gregorian
    calendar, day 0 is 1970-01-01). *)
Definition civil_from_days (z : Z) : Z * Z * Z :=
  let z := z + 719468 in
  let era := z / 146097 in
  let doe := z - era * 146097 in
  let yoe := (doe - doe / 1460 + doe / 36524 - doe / 146096) / 365 in
  let doy := doe - (365 * yoe + yoe / 4 - yoe / 100) in
  let mp := (5 * doy + 2) / 153 in
  let d := doy - (153 * mp + 2) / 5 + 1 in
  let m := if mp <? 10 then mp + 3 else mp - 9 in
  let y := yoe + era * 400 in
  (if m <=? 2 then y + 1 else y, m, d).

Definition day_of_month (z : Z) : Z := snd (civil_from_days z).

Definition is_leap_year (y : Z) : bool :=
  (y mod 4 =? 0) && (negb (y mod 100 =? 0) || (y mod 400 =? 0)).

Definition days_in_month (y m : Z) : Z :=
  if m =? 2 then (if is_leap_year y then 29 else 28)
  else if (m =? 4) || (m =? 6) || (m =? 9) || (m =? 11) then 30
  else 31.

(** The day count of a calendar date, the inverse of [civil_from_days]. *)
Definition days_from_civil (y m d : Z) : Z :=
  let y' := if m <=? 2 then y - 1 else y in
  let era := y' / 400 in
  let yoe := y' - era * 400 in
  let mp := if 2 <? m then m - 3 else m + 9 in
  let doy := (153 * mp + 2) / 5 + d - 1 in
  let doe := yoe * 365 + yoe / 4 - yoe / 100 + doy in
  era * 146097 + doe - 719468.

(** A date of the calendar: a month from 1 to 12, a day the month has. *)
Definition valid_date (y m d : Z) : Prop :=
  1 <= m <= 12 /\ 1 <= d <= days_in_month y m.

(** The calendar month after (year, month). *)
Definition month_after (ym : Z * Z) : Z * Z :=
  if snd ym =? 12 then (fst ym + 1, 1) else (fst ym, snd ym + 1).

(** Year and month of a day count. *)
Definition year_month (z : Z) : Z * Z := fst (civil_from_days z).


(** The first day of the month a day lies in (rolling back to the ['MS']
    anchor). *)
Definition month_start (z : Z) : Z := z - (day_of_month z - 1).

(** From a day, the same day of the month one month on (a month start goes
    to the next month start). *)
Definition next_month (e : Z) : Z :=
  let '(y, m, _) := civil_from_days e in e + days_in_month y m.

(** The month starts from [e] up to [last], at most [fuel] of them. *)
Fixpoint month_starts (fuel : nat) (e last : Z) : list Z :=
  match fuel with
  | O => []
  | S fuel' =>
      if e <=? last then e :: month_starts fuel' (next_month e) last else []
  end.

Definition sum (l : list Z) : Z := fold_right Z.add 0 l.

Definition minimum (d : Z) (ds : list Z) : Z := fold_left Z.min ds d.
Definition maximum (d : Z) (ds : list Z) : Z := fold_left Z.max ds d.

(** The values of the series [s] dated within the month that starts at [e]. *)
Definition in_month (e : Z) (s : list (Z * Z)) : list Z :=
  map snd (filter (fun p => (e <=? fst p) && (fst p <? next_month e)) s).

(** [s.resample('MS').sum()] on a date-indexed integer series: one bin per
    calendar month from the month of the earliest date to the month of the
    latest, labelled by the month's first day; a month without rows sums
    to 0. *)
Definition resample_MS_sum (s : list (Z * Z)) : list (Z * Z) :=
  match map fst s with
  | [] => []
  | d :: ds =>
      let first := month_start (minimum d ds) in
      let last := maximum d ds in
      map (fun e => (e, sum (in_month e s)))
          (month_starts (S (Z.to_nat (last - first))) first last)
  end.

End Calendar.

(* ================================================================== *)
(** * dosc.py: the dashboard *)

Module Dashboard.

(** One cell group of the provider's table: the five price fields of one
    ticker on one day. *)
Record quote := mk_quote {
  q_open : float; q_high : float; q_low : float; q_close : float;
  q_volume : Z }.

(** What [yf.download] hands back.  With several tickers the columns are a
    (field, ticker) MultiIndex and each date carries one quote per ticker
    that traded that day; with a plain column index there is one quote per
    date.  The row index is the date. *)
Inductive raw_table :=
| MultiIndexColumns (rows : list (Z * list (string * quote)))
| FlatColumns (rows : list (Z * quote)).

(** [yf.download] either returns a table or raises. *)
Inductive download_outcome :=
| Downloaded (all_data : raw_table)
| DownloadRaised (e : string).

(** A row of the long table [df]: the columns Date, Ticker, Open, High, Low,
    Close, Volume. *)
Record bar := mk_bar {
  Date : Z; Ticker : string;
  Open : float; High : float; Low : float; Close : float;
  Volume : Z }.

(** A row once the Daily_Return column is set. *)
Record observation := mk_observation {
  Bar :> bar;
  Daily_Return : float }.

(** A data frame is its rows, each under its index label. *)
Definition DataFrame := list (nat * observation).

(** Calls into the UI library, in the order they are made. *)
Inductive st_call :=
| st_warning (body : string)
| st_error (body : string)
| st_success (body : string)
| st_info (body : string).

Definition bar_of (d : Z) (t : string) (q : quote) : bar :=
  mk_bar d t (q_open q) (q_high q) (q_low q) (q_close q) (q_volume q).

(** The dates of the table's row index. *)
Definition index (all_data : raw_table) : list Z :=
  match all_data with
  | MultiIndexColumns rows => map fst rows
  | FlatColumns rows => map fst rows
  end.

(** [all_data.empty] *)
Definition empty (all_data : raw_table) : bool :=
  match all_data with
  | MultiIndexColumns [] | FlatColumns [] => true
  | _ => false
  end.

(** [all_data.stack(level=1).rename_axis(['Date', 'Ticker']).reset_index()]:
    one row per date and ticker, the dates in index order; a ticker without
    a quote on a date has no cell in the raw table and gets no row. *)
Definition stack (rows : list (Z * list (string * quote))) : list bar :=
  flat_map (fun r => map (fun c => bar_of (fst r) (fst c) (snd c)) (snd r)) rows.

(** Lines 23-27: the long table, or the IndexError of [ticker_symbols[0]]. *)
Definition long_table (ticker_symbols : list string) (all_data : raw_table)
  : option (list bar) :=
  match all_data with
  | MultiIndexColumns rows => Some (stack rows)
  | FlatColumns rows =>
      match ticker_symbols with
      | [] => None
      | t0 :: _ => Some (map (fun r => bar_of (fst r) t0 (snd r)) rows)
      end
  end.

(** [df.reset_index()] leaves the rows under the labels 0, 1, 2, ... *)
Definition reset_index {A} (rows : list A) : list (nat * A) :=
  combine (seq 0 (length rows)) rows.

(** The rows of one ticker, in table order. *)
Definition group (t : string) (df : list bar) : list bar :=
  filter (fun b => String.eqb (Ticker b) t) df.




Definition no_data_warning : string :=
  "No data found for the given tickers. Please check the symbols.".

Definition download_failed (e : string) : string :=
  "Download failed. Please check your ticker symbols or network connection. Error: " ++ e.

Section FillMethod.

(** Whether [pct_change] forward-fills missing closes first (the default
    before pandas 3) or not. *)
Variable pad : bool.

(** [df.groupby('Ticker')['Close'].pct_change()]: each row is compared
    with the previous row of its own ticker; [last] holds, per ticker, the
    close carried from that previous row ([nan] when there is none).  On
    the rows of one ticker this is [Series.pct_change] of that ticker's
    closes (lemma [group_daily_return]). *)
Fixpoint pct_change_groups (last : string -> float) (df : list bar) : list float :=
  match df with
  | [] => []
  | b :: rest =>
      let prev := last (Ticker b) in
      let cur := if pad && is_nan (Close b) then prev else Close b in
      (cur / prev - 1)%float
        :: pct_change_groups
             (fun t => if String.eqb t (Ticker b) then cur else last t) rest
  end.

Definition groupby_pct_change (df : list bar) : list float :=
  pct_change_groups (fun _ => nan) df.

(** Line 29: [df['Daily_Return'] = ... * 100] *)
Definition assign_daily_return (df : list bar) : list observation :=
  Series.zip_with mk_observation df (Series.times100 (groupby_pct_change df)).

(** Line 30: [df.dropna(subset=['Daily_Return'])] *)
Definition dropna (df : DataFrame) : DataFrame :=
  filter (fun r => negb (is_nan (Daily_Return (snd r)))) df.

(** [get_stock_data]: the value returned and the UI calls made. *)
Definition get_stock_data (ticker_symbols : list string) (download : download_outcome)
  : option DataFrame * list st_call :=
  match download with
  | DownloadRaised e => (None, [st_error (download_failed e)])
  | Downloaded all_data =>
      if empty all_data then (None, [st_warning no_data_warning])
      else
        match long_table ticker_symbols all_data with
        | None => (None, [st_error (download_failed "list index out of range")])
        | Some df =>
            (Some (dropna (reset_index (assign_daily_return df))), [])
        end
  end.

End FillMethod.

(** The table of the arithmetic example: one ticker, closes 100, 110, 99 on
    three consecutive days. *)
Definition flat_quote (c : float) : quote := mk_quote c c c c 1000.

Definition closes_100_110_99 : raw_table :=
  FlatColumns [(19358, flat_quote 100); (19359, flat_quote 110); (19360, flat_quote 99)].


(** The Daily_Return column of a returned frame. *)
Definition returns_of (returned : option DataFrame) : option (list float) :=
  option_map (map (fun r : nat * observation => Daily_Return (snd r))) returned.

(** ** The page: period filter and ticker selection (lines 215-251) *)

Inductive period_label := P_1M | P_6M | P_1Y | P_3Y | P_5Y | P_All.

Inductive period_value := Days (n : Z) | Max.

Definition period_options (label : period_label) : period_value :=
  match label with
  | P_1M => Days 30
  | P_6M => Days 180
  | P_1Y => Days 365
  | P_3Y => Days (3 * 365)
  | P_5Y => Days (5 * 365)
  | P_All => Max
  end.

(** Lines 244-249.  [None] stands for the TypeError that
    [timedelta(days="max")] would raise. *)
Definition filtered_data (end_date : Z) (current_period : period_label)
  (full_stock_data : DataFrame) : option DataFrame :=
  match current_period with
  | P_All => Some full_stock_data
  | _ =>
      match period_options current_period with
      | Days n =>
          let start_date := end_date - n in
          Some (filter (fun r : nat * observation => start_date <=? Date (snd r))
                       full_stock_data)
      | Max => None
      end
  end.

(** Line 251 on top of lines 244-249. *)
Definition selected_data (end_date : Z) (current_period : period_label)
  (selected_ticker : string) (full_stock_data : DataFrame) : option DataFrame :=
  match filtered_data end_date current_period full_stock_data with
  | Some filtered =>
      Some (filter (fun r : nat * observation => String.eqb (Ticker (snd r)) selected_ticker)
                   filtered)
  | None => None
  end.

(** The window of a period as the specification words it: every date for
    "All", the dates from [today - windowDays] on for a finite window. *)
Definition in_window (today : Z) (label : period_label) (date : Z) : bool :=
  match period_options label with
  | Max => true
  | Days window_days => today - window_days <=? date
  end.

(** A row matches a request when it has the ticker and lies in the window. *)
Definition matches (today : Z) (label : period_label) (ticker : string)
  (r : nat * observation) : bool :=
  String.eqb (Ticker (snd r)) ticker && in_window today label (Date (snd r)).

(** ** The charts (lines 44-84) *)

Record candlestick := mk_candlestick {
  c_x : list Z;
  c_open : list float; c_high : list float; c_low : list float; c_close : list float;
  c_title : string; c_xaxis_range : Z * Z }.

Record bar_chart := mk_bar_chart {
  b_x : list Z; b_y : list Z;
  b_title : string; b_xaxis_range : Z * Z }.

Definition column {A} (f : bar -> A) (df : DataFrame) : list A :=
  map (fun r => f (Bar (snd r))) df.

(** [df.set_index('Date')['Volume']] *)
Definition volume_series (df : DataFrame) : list (Z * Z) :=
  combine (column Date df) (column Volume df).

(** [(df['Date'].max() - df['Date'].min()).days] of a frame with first date
    [d] and further dates [ds]. *)
Definition time_delta_days (d : Z) (ds : list Z) : Z :=
  Calendar.maximum d ds - Calendar.minimum d ds.

(** The function is only called on a frame with rows (line 261); [None]
    stands for the call on an empty frame, whose earliest date is no date. *)
Definition create_candlestick_and_volume_charts
  (df : DataFrame) (ticker : string) (end_date : Z) : option (candlestick * bar_chart) :=
  match column Date df with
  | [] => None
  | d :: ds =>
      let actual_start_date := Calendar.minimum d ds in
      let fig_candle :=
        mk_candlestick (column Date df) (column Open df) (column High df)
          (column Low df) (column Close df)
          ("Price Action for " ++ ticker) (actual_start_date, end_date) in
      let fig_volume :=
        if time_delta_days d ds >? 730 then
          let monthly_volume := Calendar.resample_MS_sum (volume_series df) in
          mk_bar_chart (map fst monthly_volume) (map snd monthly_volume)
            ("Monthly Volume for " ++ ticker) (actual_start_date, end_date)
        else
          mk_bar_chart (column Date df) (column Volume df)
            ("Daily Volume for " ++ ticker) (actual_start_date, end_date) in
      Some (fig_candle, fig_volume)
  end.

(** Four rows of one ticker spread over three years, with volumes 100 to
    400. *)
Definition three_years : DataFrame :=
  [(1%nat, mk_observation (mk_bar 18631 "SPY" 370 372 368 371 100) 0x1p-1);
   (2%nat, mk_observation (mk_bar 18660 "SPY" 380 383 379 382 200) 0x1p+0);
   (3%nat, mk_observation (mk_bar 19158 "SPY" 375 379 372 378 300) (-0x1p-2));
   (4%nat, mk_observation (mk_bar 19724 "SPY" 472 474 470 473 400) 0x1p-3)].

(** ** The page body (lines 234-295) *)

(** What the first tab shows; the formatted figures of the five metrics are
    not modelled. *)
Inductive tab1_view :=
| kpis_and_charts (fig_candle : candlestick) (fig_volume : bar_chart)
| tab1_warning (body : string).

Inductive page_view :=
| enter_tickers (calls : list st_call)
| nothing_loaded (calls : list st_call)
| no_selection (calls : list st_call)
| loaded (calls : list st_call) (tab1 : option tab1_view).

Definition loaded_message : string :=
  "Full historical data loaded and cached successfully!".

Definition no_data_in_period : string :=
  "No data available for the selected ticker in this time period.".

Definition nothing_loaded_message : string :=
  "No stock data was loaded. Please check tickers and try again.".

Definition tab1 (selected : DataFrame) (selected_ticker : string) (end_date : Z)
  : option tab1_view :=
  match selected with
  | [] => Some (tab1_warning no_data_in_period)
  | _ :: _ =>
      match create_candlestick_and_volume_charts selected selected_ticker end_date with
      | Some (c, v) => Some (kpis_and_charts c v)
      | None => None
      end
  end.

(** The branch taken on the value [get_stock_data] returned (lines 236-293);
    [None] in [loaded] stands for an exception escaping the tab. *)
Definition page_body (returned : option DataFrame * list st_call)
  (current_period : period_label) (selected_ticker : string) (end_date : Z) : page_view :=
  match fst returned with
  | Some ((_ :: _) as full_stock_data) =>
      let calls := snd returned ++ [st_success loaded_message] in
      if String.eqb selected_ticker "" then no_selection calls
      else
        loaded calls
          (match selected_data end_date current_period selected_ticker full_stock_data with
           | Some selected => tab1 selected selected_ticker end_date
           | None => None
           end)
  | _ =>
      nothing_loaded (snd returned ++ [st_warning nothing_loaded_message])
  end.

Definition page (pad : bool) (ticker_symbols : list string) (download : download_outcome)
  (current_period : period_label) (selected_ticker : string) (end_date : Z) : page_view :=
  match ticker_symbols with
  | [] => enter_tickers [st_info "Please enter one or more ticker symbols to begin."]
  | _ :: _ =>
      page_body (get_stock_data pad ticker_symbols download)
        current_period selected_ticker end_date
  end.

End Dashboard.

(* ================================================================== *)
(** * get_stock_data.py: the two batch export scripts *)

Module BatchExport.

(** ** Data frames with named columns *)

(** A column label: a plain name, or a (field, ticker) pair of a MultiIndex. *)
Inductive label := Name (s : string) | Tuple (level0 level1 : string).

Inductive cell :=
| Float (x : float)
| Int (n : Z)
| Str (s : string)
| Timestamp (day : Z).

Record DataFrame := mk_frame {
  index_name : option string;
  index : list cell;
  columns : list (label * list cell) }.

Record csv := mk_csv {
  header : list label;
  body : list (list cell) }.

Definition labels (df : DataFrame) : list label := map fst (columns df).

Definition nrows (df : DataFrame) : nat := length (index df).

(** [df.empty]: no rows or no columns. *)
Definition empty (df : DataFrame) : bool :=
  Nat.eqb (nrows df) 0 || Nat.eqb (length (columns df)) 0.

Definition top_level (l : label) : string :=
  match l with Name s => s | Tuple a _ => a end.

Definition is_tuple (l : label) : bool :=
  match l with Name _ => false | Tuple _ _ => true end.

Definition label_eqb (a b : label) : bool :=
  match a, b with
  | Name s, Name t => String.eqb s t
  | Tuple s1 s2, Tuple t1 t2 => String.eqb s1 t1 && String.eqb s2 t2
  | _, _ => false
  end.

(** Whether the columns are a MultiIndex. *)
Definition is_multi (df : DataFrame) : bool :=
  match labels df with
  | [] => false
  | ls => forallb is_tuple ls
  end.

(** A string key addresses the columns whose name, or first level, it is. *)
Definition key_matches (key : string) (l : label) : bool :=
  String.eqb (top_level l) key.

(** [key in df.columns] *)
Definition has_column (df : DataFrame) (key : string) : bool :=
  existsb (key_matches key) (labels df).

(** The label a new column gets under a string key. *)
Definition new_label (df : DataFrame) (key : string) : label :=
  if is_multi df then Tuple key "" else Name key.

(** [df[key] = values]: an existing column is overwritten in place, a new
    one is appended on the right. *)
Definition setitem (df : DataFrame) (key : string) (values : list cell) : DataFrame :=
  mk_frame (index_name df) (index df)
    (if has_column df key
     then map (fun c => if key_matches key (fst c) then (fst c, values) else c) (columns df)
     else columns df ++ [(new_label df key, values)]).

(** [df[key] = scalar] *)
Definition setitem_scalar (df : DataFrame) (key : string) (v : cell) : DataFrame :=
  setitem df key (repeat v (nrows df)).

(** [df[key]]: the column, or None for the KeyError. *)
Definition getitem (df : DataFrame) (key : string) : option (list cell) :=
  option_map snd (find (fun c => key_matches key (fst c)) (columns df)).

(** [df[keys]]: the columns under the keys, in the order of the keys. *)
Definition select (df : DataFrame) (keys : list string) : DataFrame :=
  mk_frame (index_name df) (index df)
    (flat_map (fun k => filter (fun c => key_matches k (fst c)) (columns df)) keys).

(** [df.columns = [col[0] if isinstance(col, tuple) else col for col in df.columns]] *)
Definition flatten_columns (df : DataFrame) : DataFrame :=
  mk_frame (index_name df) (index df)
    (map (fun c => (Name (top_level (fst c)), snd c)) (columns df)).

Definition float_of_Z (n : Z) : float :=
  if n <? 0 then (- of_uint63 (Uint63.of_Z (- n)))%float
  else of_uint63 (Uint63.of_Z n).

(** A column read as numbers; None stands for the TypeError that arithmetic
    on text or dates raises. *)
Fixpoint to_floats (values : list cell) : option (list float) :=
  match values with
  | [] => Some []
  | c :: rest =>
      match (match c with
             | Float x => Some x
             | Int n => Some (float_of_Z n)
             | Str _ | Timestamp _ => None
             end), to_floats rest with
      | Some x, Some xs => Some (x :: xs)
      | _, _ => None
      end
  end.

Definition is_missing (c : cell) : bool :=
  match c with Float x => is_nan x | _ => false end.

Definition keep_rows {A} (mask : list bool) (l : list A) : list A :=
  map snd (filter fst (combine mask l)).

(** [df.dropna(subset=[key])] *)
Definition dropna (df : DataFrame) (key : string) : option DataFrame :=
  match getitem df key with
  | None => None
  | Some values =>
      let mask := map (fun c => negb (is_missing c)) values in
      Some (mk_frame (index_name df) (keep_rows mask (index df))
              (map (fun c => (fst c, keep_rows mask (snd c))) (columns df)))
  end.

Definition range_index (n : nat) : list cell :=
  map (fun i => Int (Z.of_nat i)) (seq 0 n).

(** [df.reset_index()]: the index becomes the first column. *)
Definition reset_index (df : DataFrame) : DataFrame :=
  let name := match index_name df with Some s => s | None => "index"%string end in
  mk_frame None (range_index (nrows df))
    ((new_label df name, index df) :: columns df).

Fixpoint union_labels (seen : list label) (ls : list label) : list label :=
  match ls with
  | [] => seen
  | l :: rest =>
      union_labels (if existsb (label_eqb l) seen then seen else seen ++ [l]) rest
  end.

Definition column_or_missing (l : label) (df : DataFrame) : list cell :=
  match find (fun c => label_eqb l (fst c)) (columns df) with
  | Some c => snd c
  | None => repeat (Float nan) (nrows df)
  end.

(** [pd.concat(frames)]: rows one frame after the other, under the union
    of the columns. *)
Definition concat (frames : list DataFrame) (ignore_index : bool) : DataFrame :=
  let idx := flat_map index frames in
  mk_frame
    (if ignore_index then None
     else match frames with f :: _ => index_name f | [] => None end)
    (if ignore_index then range_index (length idx) else idx)
    (map (fun l => (l, flat_map (column_or_missing l) frames))
         (union_labels [] (flat_map labels frames))).

Definition row (df : DataFrame) (with_index : bool) (i : nat) : list cell :=
  (if with_index then [nth i (index df) (Float nan)] else [])
  ++ map (fun c => nth i (snd c) (Float nan)) (columns df).

(** [df.to_csv(path, index=with_index)]: the header line and the data rows. *)
Definition to_csv (df : DataFrame) (with_index : bool) : csv :=
  mk_csv
    ((if with_index
      then [Name (match index_name df with Some s => s | None => ""%string end)]
      else [])
     ++ labels df)
    (map (row df with_index) (seq 0 (nrows df))).

(** ** What a run does *)

Inductive download_result :=
| returns (df : DataFrame)
| raises (e : string).

Inductive message :=
| invalid_date_format
| downloading (ticker : string) (start_date end_date : Z)
| no_data_found (ticker : string)
| columns_missing (ticker : string)
| error_downloading (ticker : string) (e : string)
| failed_to_download (ticker : string) (e : string)
| nothing_downloaded
| no_data_downloaded
| saved (tickers : nat) (path : string)
| debug_frame (what : string) (df : DataFrame).

Inductive event :=
| makedirs (path : string)
| input (prompt : string)
| print (m : message)
| download (ticker : string) (start_date end_date : Z)
| write_csv (path : string) (contents : csv)
| traceback (exception : string).

(** The events of a run, in order, and the exit status of the process. *)
Definition run := (list event * Z)%type.

Definition start_prompt : string :=
  "Enter the start date (YYYY-MM-DD, e.g., 2023-01-01): ".

Definition end_prompt : string :=
  "Enter the end date (YYYY-MM-DD, e.g., 2023-12-31): ".

Definition output_dir : string := "F:\finance_projects".

Definition output_path : string := "F:\finance_projects\combined_stock_data.csv".

Definition required_financial_cols : list string :=
  ["Open"; "High"; "Low"; "Close"; "Volume"]%string.

Definition type_error : string := "unsupported operand type(s)".

Section Scripts.

(** [pd.to_datetime] on the typed text: the day, or None for the
    ValueError it raises on text it cannot read as a date. *)
Variable to_datetime : string -> option Z.

(** [yf.download(ticker, start=..., end=..., auto_adjust=...)]; the first
    script passes [auto_adjust=True], the second leaves it out. *)
Variable yf_download : string -> Z -> Z -> option bool -> download_result.

(** Whether [pct_change] forward-fills first. *)
Variable pad : bool.

(** [df['Close'].pct_change() * 100] as cells; None for an exception. *)
Definition close_returns (df : DataFrame) : option (list cell) :=
  match getitem df "Close" with
  | None => None
  | Some values =>
      match to_floats values with
      | None => None
      | Some closes => Some (map Float (Series.times100 (Series.pct_change pad closes)))
      end
  end.

(** *** First script (lines 1-84) *)

(** The body of the [try] of lines 29-68 on a returned frame: the messages
    printed and the frame appended to [all_stock_data], if any. *)
Definition prepare_ticker (ticker : string) (stock_data_single : DataFrame)
  : list event * option DataFrame :=
  if empty stock_data_single then ([print (no_data_found ticker)], None)
  else
    let df := setitem_scalar stock_data_single "Ticker" (Str ticker) in
    let df := flatten_columns df in
    let existing_financial_cols := filter (has_column df) required_financial_cols in
    if (length existing_financial_cols <? length required_financial_cols)%nat
    then ([print (columns_missing ticker)], None)
    else
      let df := select df existing_financial_cols in
      let df := setitem_scalar df "Ticker" (Str ticker) in
      match close_returns df with
      | None => ([print (error_downloading ticker type_error)], None)
      | Some daily_return =>
          let df := setitem df "Daily_Return" daily_return in
          match dropna df "Daily_Return" with
          | None => ([print (error_downloading ticker "Daily_Return")], None)
          | Some df => ([], Some (reset_index df))
          end
      end.

Definition export_ticker (start_date end_date : Z) (ticker : string)
  : list event * option DataFrame :=
  let announced := [print (downloading ticker start_date end_date);
                    download ticker start_date end_date] in
  match yf_download ticker start_date end_date (Some true) with
  | raises e => (announced ++ [print (error_downloading ticker e)], None)
  | returns df =>
      let '(events, appended) := prepare_ticker ticker df in
      (announced ++ events, appended)
  end.

Fixpoint export_loop (start_date end_date : Z) (tickers : list string)
  : list event * list DataFrame :=
  match tickers with
  | [] => ([], [])
  | ticker :: rest =>
      let '(events, appended) := export_ticker start_date end_date ticker in
      let '(events', frames) := export_loop start_date end_date rest in
      (events ++ events',
       match appended with Some df => df :: frames | None => frames end)
  end.

Definition first_ticker_symbols : list string := ["AAPL"; "GOOGL"; "MSFT"]%string.

Definition first_script (start_date_str end_date_str : string) : run :=
  let asked := [makedirs output_dir; input start_prompt; input end_prompt] in
  match to_datetime start_date_str with
  | None => (asked ++ [print invalid_date_format], 0)
  | Some start_date =>
      match to_datetime end_date_str with
      | None => (asked ++ [print invalid_date_format], 0)
      | Some end_date =>
          let '(events, all_stock_data) :=
            export_loop start_date end_date first_ticker_symbols in
          match all_stock_data with
          | [] => (asked ++ events ++ [print nothing_downloaded], 0)
          | _ :: _ =>
              let combined_stock_data := concat all_stock_data true in
              (asked ++ events
               ++ [write_csv output_path (to_csv combined_stock_data false);
                   print (saved (length first_ticker_symbols) output_path)], 0)
          end
      end
  end.

(** *** Second script (lines 87-148) *)

Definition second_ticker (start_date end_date : Z) (ticker : string)
  : list event * option DataFrame :=
  let announced := [print (downloading ticker start_date end_date);
                    download ticker start_date end_date] in
  match yf_download ticker start_date end_date None with
  | raises e => (announced ++ [print (failed_to_download ticker e)], None)
  | returns stock_data_single =>
      let debugged :=
        announced ++ [print (debug_frame "Head" stock_data_single);
                      print (debug_frame "Tail" stock_data_single);
                      print (debug_frame "Shape" stock_data_single)] in
      if empty stock_data_single
      then (debugged ++ [print (no_data_found ticker)], None)
      else
        let df := setitem_scalar stock_data_single "Ticker" (Str ticker) in
        match close_returns df with
        | None => (debugged ++ [print (failed_to_download ticker type_error)], None)
        | Some daily_return => (debugged, Some (setitem df "Daily_Return" daily_return))
        end
  end.

Fixpoint second_loop (start_date end_date : Z) (tickers : list string)
  : list event * list DataFrame :=
  match tickers with
  | [] => ([], [])
  | ticker :: rest =>
      let '(events, appended) := second_ticker start_date end_date ticker in
      let '(events', frames) := second_loop start_date end_date rest in
      (events ++ events',
       match appended with Some df => df :: frames | None => frames end)
  end.

Definition second_ticker_symbols : list string := ["AAPL"; "GOOGL"; "MSFT"; "TSLA"]%string.

Definition second_script (start_date_str end_date_str : string) : run :=
  let asked := [input start_prompt; input end_prompt] in
  match to_datetime start_date_str with
  | None => (asked ++ [traceback "ValueError"], 1)
  | Some start_date =>
      match to_datetime end_date_str with
      | None => (asked ++ [traceback "ValueError"], 1)
      | Some end_date =>
          let '(events, all_stock_data) :=
            second_loop start_date end_date second_ticker_symbols in
          match all_stock_data with
          | [] => (asked ++ events ++ [print no_data_downloaded], 0)
          | _ :: _ =>
              let combined_data := concat all_stock_data false in
              (asked ++ events
               ++ [print (debug_frame "Combined Head" combined_data);
                   print (debug_frame "Combined Tail" combined_data);
                   print (debug_frame "Combined Tickers" combined_data);
                   print (debug_frame "Combined Shape" combined_data);
                   write_csv output_path (to_csv combined_data true);
                   print (saved (length all_stock_data) output_path)], 0)
          end
      end
  end.

End Scripts.

(** ** A concrete run: one ticker with four days of data *)

Definition digit (c : Ascii.ascii) : option Z :=
  let n := Z.of_nat (Ascii.nat_of_ascii c) - 48 in
  if (0 <=? n) && (n <=? 9) then Some n else None.

Fixpoint number (acc : Z) (cs : list Ascii.ascii) : option Z :=
  match cs with
  | [] => Some acc
  | c :: rest =>
      match digit c with
      | Some n => number (10 * acc + n) rest
      | None => None
      end
  end.

Definition is_dash (c : Ascii.ascii) : bool := Ascii.eqb c "-"%char.

(** A stand-in for [pd.to_datetime] that reads exactly the dates written
    YYYY-MM-DD and takes every other text as unreadable. *)
Definition iso_date (s : string) : option Z :=
  match list_ascii_of_string s with
  | [y1; y2; y3; y4; s1; m1; m2; s2; d1; d2] =>
      match number 0 [y1; y2; y3; y4], number 0 [m1; m2], number 0 [d1; d2] with
      | Some y, Some m, Some d =>
          if is_dash s1 && is_dash s2
             && (1 <=? m) && (m <=? 12) && (1 <=? d) && (d <=? Calendar.days_in_month y m)
          then Some (Calendar.days_from_civil y m d)
          else None
      | _, _, _ => None
      end
  | _ => None
  end.

(** Four days of one ticker, as the provider lays a single ticker out. *)
Definition four_days : DataFrame :=
  mk_frame (Some "Date"%string)
    [Timestamp 19358; Timestamp 19359; Timestamp 19360; Timestamp 19361]
    [(Name "Open", [Float 99; Float 101; Float 109; Float 100]);
     (Name "High", [Float 101; Float 111; Float 110; Float 109]);
     (Name "Low", [Float 98; Float 100; Float 98; Float 99]);
     (Name "Close", [Float 100; Float 110; Float 99; Float 108]);
     (Name "Volume", [Int 1000; Int 1200; Int 900; Int 1100])].

Definition no_days : DataFrame :=
  mk_frame (Some "Date"%string) []
    [(Name "Open", []); (Name "High", []); (Name "Low", []);
     (Name "Close", []); (Name "Volume", [])].

(** A provider that has data for AAPL only. *)
Definition only_aapl (ticker : string) (start_date end_date : Z) (auto_adjust : option bool)
  : download_result :=
  if String.eqb ticker "AAPL" then returns four_days else returns no_days.

Definition export_header : list label :=
  [Name "Date"; Name "Open"; Name "High"; Name "Low"; Name "Close"; Name "Volume";
   Name "Ticker"; Name "Daily_Return"].

(** Whether a run reached the provider or wrote a file. *)
Definition touches_data (e : event) : bool :=
  match e with
  | download _ _ _ | write_csv _ _ => true
  | _ => false
  end.

(** The file a run wrote, if it wrote one. *)
Definition written (r : run) : option csv :=
  match filter (fun e => match e with write_csv _ _ => true | _ => false end) (fst r) with
  | write_csv _ contents :: _ => Some contents
  | _ => None
  end.

End BatchExport.

(* ================================================================== *)
(** * dosc.py: the ticker drop-down and the order of the periods *)

Module Selection.
Import Dashboard.

(** [series.unique()]: the distinct values, in order of first appearance. *)
Fixpoint unique (l : list string) : list string :=
  match l with
  | [] => []
  | x :: rest => x :: filter (fun y => negb (String.eqb y x)) (unique rest)
  end.

Fixpoint insert (x : string) (l : list string) : list string :=
  match l with
  | [] => [x]
  | y :: rest => if String.leb x y then x :: l else y :: insert x rest
  end.

(** [sorted(values)] on strings: ascending by code point. *)
Definition sorted (l : list string) : list string := fold_right insert [] l.

(** Line 238: [sorted(full_stock_data['Ticker'].unique())] *)
Definition available_tickers (full_stock_data : DataFrame) : list string :=
  sorted (unique (column Ticker full_stock_data)).

(** Line 239: [st.selectbox] hands back the option at the position the user
    picked (the first one until they pick), or None without options. *)
Definition selectbox (options : list string) (picked : nat) : option string :=
  nth_error options picked.

(** Whether period [a] reaches back no further than period [b]
    (lines 215 and 247-248). *)
Definition period_within (a b : period_label) : bool :=
  match period_options a, period_options b with
  | _, Max => true
  | Max, Days _ => false
  | Days n, Days m => n <=? m
  end.

(** The count of the calendar month a day lies in. *)
Definition month_index (z : Z) : Z :=
  12 * fst (Calendar.year_month z) + snd (Calendar.year_month z).

(** The Volume column is int64, and pandas adds int64 cells without an
    overflow check: a sum is the exact sum brought back into
    [-2^63, 2^63) by wrap-around. *)
Definition int64 (z : Z) : Z := (z + 2 ^ 63) mod 2 ^ 64 - 2 ^ 63.

(** [values.sum()] on an int64 column. *)
Definition sum_int64 (values : list Z) : Z :=
  fold_right (fun v acc => int64 (v + acc)) 0 values.

End Selection.

(* ================================================================== *)
(** * get_stock_data.py: what a run asked of the provider *)

Module Runs.
Import BatchExport.

(** The tickers a run requested from the provider, in order. *)
Definition downloads (events : list event) : list string :=
  flat_map (fun e => match e with download ticker _ _ => [ticker] | _ => [] end) events.

(** A frame is well formed when every column has one cell per index entry. *)
Definition well_formed (df : DataFrame) : bool :=
  forallb (fun c => Nat.eqb (length (snd c)) (nrows df)) (columns df).

(** The columns a string key addresses. *)
Definition columns_under (df : DataFrame) (key : string) : list (label * list cell) :=
  filter (fun c => key_matches key (fst c)) (columns df).

(** A provider whose every download raises. *)
Definition always_raises (ticker : string) (start_date end_date : Z)
  (auto_adjust : option bool) : download_result :=
  raises "connection timed out".

(** A download that yields no rows: it raised, or the frame is empty. *)
Definition answers_nothing (r : download_result) : bool :=
  match r with
  | raises _ => true
  | returns df => empty df
  end.

Definition is_write (e : event) : bool :=
  match e with write_csv _ _ => true | _ => false end.

(** Two days of one ticker under MultiIndex columns, in another order and
    with an adjusted close besides. *)
Definition shuffled_days : DataFrame :=
  mk_frame (Some "Date"%string) [Timestamp 19358; Timestamp 19359]
    [(Tuple "Adj Close" "MSFT", [Float 238; Float 240]);
     (Tuple "Volume" "MSFT", [Int 10; Int 20]);
     (Tuple "Close" "MSFT", [Float 239; Float 241]);
     (Tuple "Low" "MSFT", [Float 237; Float 238]);
     (Tuple "High" "MSFT", [Float 242; Float 243]);
     (Tuple "Open" "MSFT", [Float 238; Float 239])].

End Runs.

(* ================================================================== *)
(** * dosc.py: the sidebar (lines 211-231) *)

Module Sidebar.
Import Dashboard.

(** ** The ticker box (lines 212-213), on ASCII text

    [str.upper] and [str.strip] follow Unicode rules; on ASCII text, which
    is what ticker symbols are, they are the functions below. *)

Definition upper_char (c : ascii) : ascii :=
  let n := nat_of_ascii c in
  if (97 <=? n)%nat && (n <=? 122)%nat then ascii_of_nat (n - 32) else c.

(** [s.upper()] *)
Fixpoint upper (s : string) : string :=
  match s with
  | EmptyString => EmptyString
  | String c rest => String (upper_char c) (upper rest)
  end.

(** [c.isspace()]: tab to carriage return, the four separators and the
    space. *)
Definition isspace (c : ascii) : bool :=
  let n := nat_of_ascii c in
  ((9 <=? n)%nat && (n <=? 13)%nat) || ((28 <=? n)%nat && (n <=? 32)%nat).

Fixpoint lstrip (s : string) : string :=
  match s with
  | EmptyString => EmptyString
  | String c rest => if isspace c then lstrip rest else s
  end.

Fixpoint rstrip (s : string) : string :=
  match s with
  | EmptyString => EmptyString
  | String c rest =>
      match rstrip rest with
      | EmptyString => if isspace c then EmptyString else String c EmptyString
      | kept => String c kept
      end
  end.

(** [s.strip()] *)
Definition strip (s : string) : string := lstrip (rstrip s).

(** [s.split(sep)] for a one-character separator. *)
Fixpoint split (sep : ascii) (s : string) : list string :=
  match s with
  | EmptyString => [EmptyString]
  | String c rest =>
      if Ascii.eqb c sep then EmptyString :: split sep rest
      else match split sep rest with
           | piece :: pieces => String c piece :: pieces
           | [] => [String c EmptyString]
           end
  end.

Definition comma : ascii := ","%char.

(** Lines 212-213: the text upper-cased, cut at the commas, each piece
    stripped, the empty ones left out. *)
Definition ticker_symbols (ticker_input : string) : list string :=
  flat_map (fun ticker => match strip ticker with
                          | EmptyString => []
                          | stripped => [stripped]
                          end)
           (split comma (upper ticker_input)).

(** [sep.join(pieces)] *)
Fixpoint join (sep : string) (pieces : list string) : string :=
  match pieces with
  | [] => EmptyString
  | [piece] => piece
  | piece :: rest => piece ++ sep ++ join sep rest
  end.

Fixpoint all_chars (f : ascii -> bool) (s : string) : bool :=
  match s with
  | EmptyString => true
  | String c rest => f c && all_chars f rest
  end.

(** [s.isascii()]: the text on which the functions above are Python's. *)
Definition isascii (s : string) : bool :=
  all_chars (fun c => (nat_of_ascii c <? 128)%nat) s.

(** What every symbol read from the box is: non-empty, stripped, upper
    case and free of commas. *)
Definition clean (ticker : string) : Prop :=
  ticker <> EmptyString
  /\ strip ticker = ticker
  /\ upper ticker = ticker
  /\ all_chars (fun c => negb (Ascii.eqb c comma)) ticker = true.

(** ** The period buttons (lines 215-231) *)

Inductive button_type := primary | secondary.

Definition label_eqb (a b : period_label) : bool :=
  match a, b with
  | P_1M, P_1M | P_6M, P_6M | P_1Y, P_1Y | P_3Y, P_3Y | P_5Y, P_5Y | P_All, P_All => true
  | _, _ => false
  end.

(** The keys of [period_options], in the order the dictionary lists them. *)
Definition period_labels : list period_label := [P_1M; P_6M; P_1Y; P_3Y; P_5Y; P_All].

(** Where a key stands in that order. *)
Definition position (label : period_label) : nat :=
  match label with
  | P_1M => 0 | P_6M => 1 | P_1Y => 2 | P_3Y => 3 | P_5Y => 4 | P_All => 5
  end.

(** The loop of lines 221-231: each button is drawn with the type the
    stored period gives it at that moment, and the button that was clicked
    stores its label.  The result is the buttons drawn and the period
    stored at the end. *)
Fixpoint period_buttons (clicked : option period_label) (period : period_label)
  (labels : list period_label) : list (period_label * button_type) * period_label :=
  match labels with
  | [] => ([], period)
  | period_label :: rest =>
      let is_active := label_eqb period_label period in
      let button_type := if is_active then primary else secondary in
      let period' :=
        match clicked with
        | Some c => if label_eqb c period_label then period_label else period
        | None => period
        end in
      let '(buttons, final) := period_buttons clicked period' rest in
      ((period_label, button_type) :: buttons, final)
  end.

(** Lines 216-231: the stored period starts as "All". *)
Definition sidebar_periods (stored : option period_label) (clicked : option period_label)
  : list (period_label * button_type) * period_label :=
  period_buttons clicked (match stored with Some p => p | None => P_All end) period_labels.

Definition primaries (buttons : list (period_label * button_type)) : list period_label :=
  map fst (filter (fun b => match snd b with primary => true | secondary => false end) buttons).

End Sidebar.

(* ================================================================== *)
(** * Facts about the model *)

(** ** How a missing value propagates through float arithmetic *)

Lemma Prim2SF_nan : Prim2SF nan = S754_nan.
Proof. reflexivity. Qed.

Lemma div_nan_r (x : float) : (x / nan)%float = nan.
Proof.
  apply Prim2SF_inj. rewrite div_spec, Prim2SF_nan.
  unfold SF64div, SFdiv. destruct (Prim2SF x); reflexivity.
Qed.

Lemma sub_nan_l (x : float) : (nan - x)%float = nan.
Proof.
  apply Prim2SF_inj. rewrite sub_spec, Prim2SF_nan. reflexivity.
Qed.

Lemma mul_nan_l (x : float) : (nan * x)%float = nan.
Proof.
  apply Prim2SF_inj. rewrite mul_spec, Prim2SF_nan. reflexivity.
Qed.

(** The return computed against a missing previous close is missing. *)
Lemma return_of_missing_prev (x : float) : is_nan ((x / nan - 1) * 100)%float = true.
Proof. now rewrite div_nan_r, sub_nan_l, mul_nan_l. Qed.

(** ** Series *)

Section SeriesFacts.
Import Series.

Lemma zip_shift_scan (prev : float) (xs : list float) :
  zip_with (fun a b => (a / b - 1)%float) xs (firstn (length xs) (prev :: xs))
  = pct_scan false prev xs.
Proof.
  revert prev. induction xs as [|x xs IH]; intros prev; [reflexivity|].
  cbn [length firstn]. unfold zip_with in *. cbn [combine map fst snd pct_scan andb].
  f_equal. apply IH.
Qed.

Lemma pct_scan_ffill (prev : float) (xs : list float) :
  pct_scan false prev (ffill_from prev xs) = pct_scan true prev xs.
Proof.
  revert prev. induction xs as [|x xs IH]; intros prev; [reflexivity|].
  cbn [ffill_from pct_scan andb]. f_equal. apply IH.
Qed.

Lemma pct_change_scan (pad : bool) (xs : list float) :
  pct_change pad xs = pct_scan pad nan xs.
Proof.
  unfold pct_change, shift, filled. destruct pad.
  - unfold ffill. rewrite zip_shift_scan. apply pct_scan_ffill.
  - apply zip_shift_scan.
Qed.

Lemma pct_scan_length pad prev xs : length (pct_scan pad prev xs) = length xs.
Proof.
  revert prev. induction xs as [|x xs IH]; intros prev; cbn; [reflexivity|].
  now rewrite IH.
Qed.

Lemma pct_change_length pad xs : length (pct_change pad xs) = length xs.
Proof. rewrite pct_change_scan. apply pct_scan_length. Qed.

End SeriesFacts.

(** ** Lists and index labels *)

Lemma nth_error_zip_with {A B C} (f : A -> B -> C) xs ys i :
  nth_error (Series.zip_with f xs ys) i =
  match nth_error xs i, nth_error ys i with
  | Some a, Some b => Some (f a b)
  | _, _ => None
  end.
Proof.
  unfold Series.zip_with. revert ys i.
  induction xs as [|x xs IH]; intros [|y ys] [|i]; cbn; try reflexivity.
  - now destruct (nth_error xs i).
  - apply IH.
Qed.

Lemma in_combine_seq {A} (l : list A) (s i : nat) (x : A) :
  In (i, x) (combine (seq s (length l)) l) <->
  (s <= i)%nat /\ nth_error l (i - s) = Some x.
Proof.
  revert s. induction l as [|a l IH]; intros s; cbn.
  - split; [tauto|]. intros [_ H]. now destruct (i - s)%nat.
  - rewrite IH. split.
    + intros [H | [H1 H2]].
      * inversion H; subst. split; [lia|]. now rewrite Nat.sub_diag.
      * split; [lia|]. replace (i - s)%nat with (S (i - S s)) by lia. exact H2.
    + intros [H1 H2]. destruct (Nat.eq_dec i s) as [->|Hne].
      * left. rewrite Nat.sub_diag in H2. cbn in H2. now inversion H2.
      * right. split; [lia|].
        replace (i - s)%nat with (S (i - S s)) in H2 by lia. exact H2.
Qed.

Lemma in_reset_index {A} (l : list A) (i : nat) (x : A) :
  In (i, x) (Dashboard.reset_index l) <-> nth_error l i = Some x.
Proof.
  unfold Dashboard.reset_index. rewrite in_combine_seq, Nat.sub_0_r.
  split; [tauto | intros H; split; [lia | exact H]].
Qed.

(** ** The grouped percentage change *)

Section GroupbyFacts.
Import Dashboard.
Variable pad : bool.

Lemma pct_change_groups_length last df :
  length (pct_change_groups pad last df) = length df.
Proof.
  revert last. induction df as [|b df IH]; intros last; cbn; [reflexivity|].
  now rewrite IH.
Qed.

(** Restricted to one ticker, the grouped computation is the plain series
    computation on that ticker's closes. *)
Lemma pct_change_groups_group (t : string) df last :
  map snd (filter (fun p => String.eqb (Ticker (fst p)) t)
                  (combine df (pct_change_groups pad last df)))
  = Series.pct_scan pad (last t) (map Close (group t df)).
Proof.
  revert last. induction df as [|b df IH]; intros last; [reflexivity|].
  cbn [pct_change_groups combine filter fst group].
  fold (group t df).
  destruct (String.eqb (Ticker b) t) eqn:E.
  - apply String.eqb_eq in E. subst t.
    cbn [map snd Series.pct_scan]. f_equal.
    rewrite IH. now rewrite String.eqb_refl.
  - rewrite IH. rewrite String.eqb_sym, E. reflexivity.
Qed.


Lemma assign_daily_return_nth df i :
  nth_error (assign_daily_return pad df) i =
  match nth_error df i, nth_error (groupby_pct_change pad df) i with
  | Some b, Some r => Some (mk_observation b (r * 100)%float)
  | _, _ => None
  end.
Proof.
  unfold assign_daily_return, Series.times100.
  rewrite nth_error_zip_with, nth_error_map.
  destruct (nth_error df i); [|reflexivity].
  now destruct (nth_error (groupby_pct_change pad df) i).
Qed.

(** What [dropna] keeps, by index label. *)
Lemma in_normalized df i o :
  In (i, o) (dropna (reset_index (assign_daily_return pad df))) <->
  exists b r, nth_error df i = Some b
              /\ nth_error (groupby_pct_change pad df) i = Some r
              /\ o = mk_observation b (r * 100)%float
              /\ is_nan (r * 100)%float = false.
Proof.
  unfold dropna. rewrite filter_In, in_reset_index, assign_daily_return_nth. cbn [snd].
  split.
  - intros [H1 H2].
    destruct (nth_error df i) as [b|]; [|discriminate].
    destruct (nth_error (groupby_pct_change pad df) i) as [r|]; [|discriminate].
    inversion H1; subst. cbn in H2. exists b, r. repeat split.
    now apply negb_true_iff.
  - intros (b & r & -> & -> & -> & H). split; [reflexivity|]. cbn. now rewrite H.
Qed.

End GroupbyFacts.

(** ** Date order of the long table *)

Section DateOrder.
Import Dashboard.







End DateOrder.

(* ================================================================== *)
(** * The claims *)

Section Normalize.
Import Dashboard.


End Normalize.

Section DailyReturn.
Import Dashboard.

Lemma pct_scan_nth (xs : list float) : forall prev i,
  (S i < length xs)%nat ->
  nth (S i) (Series.pct_scan false prev xs) nan
  = (nth (S i) xs nan / nth i xs nan - 1)%float.
Proof.
  induction xs as [|x xs IH]; intros prev i Hi; cbn in Hi; [lia|].
  cbn [Series.pct_scan andb nth]. destruct i as [|i].
  - destruct xs as [|x' xs]; cbn in Hi; [lia|]. reflexivity.
  - rewrite IH by lia. destruct xs; reflexivity.
Qed.

Lemma filled_length pad xs : length (Series.filled pad xs) = length xs.
Proof.
  unfold Series.filled, Series.ffill. destruct pad; [|reflexivity].
  generalize nan. induction xs as [|x xs IH]; intros last; cbn; [reflexivity|].
  now rewrite IH.
Qed.

Lemma pct_change_nth pad (xs : list float) i :
  (S i < length xs)%nat ->
  nth (S i) (Series.pct_change pad xs) nan
  = (nth (S i) (Series.filled pad xs) nan / nth i (Series.filled pad xs) nan - 1)%float.
Proof.
  intros Hi. unfold Series.pct_change, Series.shift. rewrite zip_shift_scan.
  apply pct_scan_nth. now rewrite filled_length.
Qed.

(** The Daily_Return column of one ticker's rows is that ticker's series of
    percentage changes, times 100. *)
Lemma group_daily_return pad (t : string) (df : list bar) :
  map Daily_Return
      (filter (fun o : observation => String.eqb (Ticker o) t) (assign_daily_return pad df))
  = Series.times100 (Series.pct_change pad (map Close (group t df))).
Proof.
  rewrite pct_change_scan.
  rewrite <- (pct_change_groups_group pad t df (fun _ => nan)).
  unfold assign_daily_return, groupby_pct_change, Series.times100, Series.zip_with.
  generalize (pct_change_groups pad (fun _ => nan) df) as rs.
  induction df as [|b df IH]; intros rs; [reflexivity|].
  destruct rs as [|r rs]; [reflexivity|].
  cbn [map combine filter fst snd Bar Ticker].
  destruct (String.eqb (Ticker b) t); cbn [map snd Daily_Return]; now rewrite IH.
Qed.

End DailyReturn.

Section NormalizeClaims.
Import Dashboard.



(** C2, as the code computes it.  Within one ticker's rows, in table order,
    the Daily_Return at position i > 0 is (close[i] / close[i-1] - 1) * 100,
    each step rounded to binary64, on the closes as [pct_change] reads them
    (forward-filled when it pads).  For the closes 100, 110, 99 the returned
    frame holds 10.000000000000009 and -9.999999999999998: 10 and -10 up to
    rounding (within 2^-46), not exactly. *)
Theorem daily_return_is_ratio_minus_one_times_100 :
  (forall (pad : bool) (df : list bar) (t : string) (i : nat),
     let returns :=
       map Daily_Return
           (filter (fun o : observation => String.eqb (Ticker o) t)
                   (assign_daily_return pad df)) in
     let closes := Series.filled pad (map Close (group t df)) in
     (0 < i < length closes)%nat ->
     nth i returns nan
     = ((nth i closes nan / nth (i - 1) closes nan - 1) * 100)%float)
  /\
  (forall pad : bool,
     returns_of (fst (get_stock_data pad ["AAPL"%string] (Downloaded closes_100_110_99)))
     = Some [0x1.4000000000005p+3; -0x1.3ffffffffffffp+3]%float)
  /\ (abs (0x1.4000000000005p+3 - 10) <? 0x1p-46)%float = true
  /\ (abs (-0x1.3ffffffffffffp+3 - -10) <? 0x1p-46)%float = true.
Proof.
  split; [|split; [|split]].
  - intros pad df t i returns closes [Hpos Hlt]. subst returns closes.
    rewrite group_daily_return. unfold Series.times100.
    rewrite filled_length in Hlt.
    rewrite (nth_indep _ nan (nan * 100)%float)
      by now rewrite length_map, pct_change_length.
    rewrite (map_nth (fun x => (x * 100)%float)).
    destruct i as [|i]; [lia|].
    rewrite pct_change_nth by exact Hlt.
    now replace (S i - 1)%nat with i by lia.
  - intros [|]; reflexivity.
  - reflexivity.
  - reflexivity.
Qed.

(** Witness for C2: position 1 of the three-day table. *)
Lemma daily_return_is_ratio_witness :
  (0 < 1 < length (Series.filled false (map Close (group "AAPL"
        [bar_of 19358 "AAPL" (flat_quote 100); bar_of 19359 "AAPL" (flat_quote 110)]))))%nat
  /\ nth 1 (map Daily_Return
              (filter (fun o : observation => String.eqb (Ticker o) "AAPL")
                 (assign_daily_return false
                    [bar_of 19358 "AAPL" (flat_quote 100);
                     bar_of 19359 "AAPL" (flat_quote 110)]))) nan
     = ((110 / 100 - 1) * 100)%float.
Proof.
  split; [cbn; lia|].
  apply (proj1 daily_return_is_ratio_minus_one_times_100 false
           [bar_of 19358 "AAPL" (flat_quote 100); bar_of 19359 "AAPL" (flat_quote 110)]
           "AAPL"%string 1%nat).
  cbn; lia.
Defined.

(** C2 as stated fails on the closes 100, 110, 99: the returned column is
    not [10.0, -10.0], and the return at position 1 is not
    (110 - 100) / 100 * 100. *)
Lemma daily_return_100_110_99_not_exact :
  returns_of (fst (get_stock_data false ["AAPL"%string] (Downloaded closes_100_110_99)))
  <> Some [10; -10]%float
  /\ (exists out,
        returns_of (fst (get_stock_data false ["AAPL"%string] (Downloaded closes_100_110_99)))
        = Some out
        /\ nth 0 out nan <> ((110 - 100) / 100 * 100)%float).
Proof.
  split.
  - vm_compute. discriminate.
  - eexists. split; [vm_compute; reflexivity|].
    vm_compute. intros H.
    assert (E : (0x1.4000000000005p+3 =? 10)%float = true) by (rewrite H; reflexivity).
    vm_compute in E. discriminate E.
Qed.

(** C5.  An empty raw table makes [get_stock_data] return nothing and show
    the no-data warning; the call ends normally. *)
Theorem empty_table_gives_no_data
  (pad : bool) (ticker_symbols : list string) (all_data : raw_table) :
  empty all_data = true ->
  get_stock_data pad ticker_symbols (Downloaded all_data)
  = (None, [st_warning no_data_warning]).
Proof.
  intros H. unfold get_stock_data. now rewrite H.
Qed.

Lemma empty_table_gives_no_data_witness :
  empty (MultiIndexColumns []) = true
  /\ get_stock_data true ["AAPL"%string; "MSFT"%string] (Downloaded (MultiIndexColumns []))
     = (None, [st_warning no_data_warning]).
Proof.
  split; [reflexivity|].
  apply (empty_table_gives_no_data true ["AAPL"%string; "MSFT"%string] (MultiIndexColumns [])).
  reflexivity.
Defined.

(** C10.  [get_stock_data] returns the same value, None, for an empty table
    and for a download that raised, and the page takes the same fallback
    branch with the same warning on both; only the message
    [get_stock_data] itself showed differs. *)
Theorem no_data_and_fetch_failure_look_alike
  (pad : bool) (ticker_symbols : list string) (all_data : raw_table) (e : string)
  (current_period : period_label) (selected_ticker : string) (end_date : Z) :
  empty all_data = true ->
  fst (get_stock_data pad ticker_symbols (Downloaded all_data)) = None
  /\ fst (get_stock_data pad ticker_symbols (DownloadRaised e)) = None
  /\ page_body (get_stock_data pad ticker_symbols (Downloaded all_data))
       current_period selected_ticker end_date
     = nothing_loaded [st_warning no_data_warning; st_warning nothing_loaded_message]
  /\ page_body (get_stock_data pad ticker_symbols (DownloadRaised e))
       current_period selected_ticker end_date
     = nothing_loaded [st_error (download_failed e); st_warning nothing_loaded_message].
Proof.
  intros H. unfold get_stock_data. rewrite H. repeat split.
Qed.

Lemma no_data_and_fetch_failure_witness :
  empty (FlatColumns []) = true
  /\ fst (get_stock_data false ["SPY"%string] (Downloaded (FlatColumns [])))
     = fst (get_stock_data false ["SPY"%string] (DownloadRaised "timed out")).
Proof.
  split; [reflexivity|].
  destruct (no_data_and_fetch_failure_look_alike false ["SPY"%string] (FlatColumns [])
              "timed out" P_All "SPY" 19358 eq_refl) as (H1 & H2 & _).
  now rewrite H1, H2.
Defined.

End NormalizeClaims.

(* ================================================================== *)
(** * Calendar facts *)

Section CalendarFacts.
Import Calendar.

Ltac Zify.zify_post_hook ::= Z.to_euclidean_division_equations.

Ltac split_cmp :=
  repeat (match goal with
          | |- context [if ?a <? ?b then _ else _] => destruct (Z.ltb_spec a b)
          | |- context [if ?a <=? ?b then _ else _] => destruct (Z.leb_spec a b)
          | |- context [?a =? ?b] => destruct (Z.eqb_spec a b)
          end; cbn [andb orb negb]).

Lemma civil_from_days_valid z :
  let '(y, m, d) := civil_from_days z in valid_date y m d.
Proof.
  unfold valid_date, civil_from_days, days_in_month, is_leap_year.
  cbv zeta. split_cmp; lia.
Qed.

Lemma days_from_civil_of_civil z :
  let '(y, m, d) := civil_from_days z in days_from_civil y m d = z.
Proof.
  unfold civil_from_days, days_from_civil. cbv zeta. split_cmp; lia.
Qed.

Lemma days_from_civil_day y m d :
  days_from_civil y m d = days_from_civil y m 1 + (d - 1).
Proof. unfold days_from_civil. cbv zeta. lia. Qed.

Lemma days_from_civil_month_lt y m m' d d' :
  1 <= m < m' -> m' <= 12 -> 1 <= d <= days_in_month y m -> 1 <= d' ->
  days_from_civil y m d < days_from_civil y m' d'.
Proof.
  unfold days_from_civil, days_in_month, is_leap_year. cbv zeta. split_cmp; lia.
Qed.

Lemma days_from_civil_year_lt y y' m m' d d' :
  y < y' -> 1 <= m <= 12 -> 1 <= m' <= 12 ->
  1 <= d <= days_in_month y m -> 1 <= d' ->
  days_from_civil y m d < days_from_civil y' m' d'.
Proof.
  unfold days_from_civil, days_in_month, is_leap_year. cbv zeta. split_cmp; lia.
Qed.

(** Two valid dates with the same day count are the same date. *)
Lemma days_from_civil_inj y m d y' m' d' :
  valid_date y m d -> valid_date y' m' d' ->
  days_from_civil y m d = days_from_civil y' m' d' ->
  (y, m, d) = (y', m', d').
Proof.
  intros [Hm Hd] [Hm' Hd'] E.
  destruct (Z.lt_trichotomy y y') as [Hy | [Hy | Hy]].
  - pose proof (days_from_civil_year_lt y y' m m' d d' Hy Hm Hm' Hd ltac:(lia)). lia.
  - subst y'. destruct (Z.lt_trichotomy m m') as [H | [H | H]].
    + pose proof (days_from_civil_month_lt y m m' d d' ltac:(lia) ltac:(lia) Hd ltac:(lia)). lia.
    + subst m'. rewrite (days_from_civil_day y m d), (days_from_civil_day y m d') in E.
      repeat f_equal. lia.
    + pose proof (days_from_civil_month_lt y m' m d' d ltac:(lia) ltac:(lia) Hd' ltac:(lia)). lia.
  - pose proof (days_from_civil_year_lt y' y m' m d' d Hy Hm' Hm Hd' ltac:(lia)). lia.
Qed.

Lemma civil_of_days_from_civil y m d :
  valid_date y m d -> civil_from_days (days_from_civil y m d) = (y, m, d).
Proof.
  intros Hv.
  pose proof (civil_from_days_valid (days_from_civil y m d)) as Hv'.
  pose proof (days_from_civil_of_civil (days_from_civil y m d)) as E.
  destruct (civil_from_days (days_from_civil y m d)) as [[y' m'] d'].
  now apply days_from_civil_inj.
Qed.

Lemma days_in_month_pos y m : 28 <= days_in_month y m.
Proof.
  unfold days_in_month.
  destruct (m =? 2); [destruct (is_leap_year y); lia|].
  destruct ((m =? 4) || (m =? 6) || (m =? 9) || (m =? 11)); lia.
Qed.

Lemma day_of_month_pos z : 1 <= day_of_month z.
Proof.
  unfold day_of_month. pose proof (civil_from_days_valid z) as H.
  destruct (civil_from_days z) as [[y m] d]. cbn. destruct H as [_ H]. lia.
Qed.

Lemma month_start_le z : month_start z <= z.
Proof. unfold month_start. pose proof (day_of_month_pos z). lia. Qed.

(** The month start of a day is the first day of the day's own month. *)
Lemma month_start_civil z y m d :
  civil_from_days z = (y, m, d) ->
  month_start z = days_from_civil y m 1
  /\ civil_from_days (month_start z) = (y, m, 1).
Proof.
  intros E.
  pose proof (civil_from_days_valid z) as Hv.
  pose proof (days_from_civil_of_civil z) as Hz.
  rewrite E in Hv, Hz. destruct Hv as [Hm Hd].
  assert (Hs : month_start z = days_from_civil y m 1).
  { unfold month_start, day_of_month. rewrite E. cbn [snd].
    rewrite (days_from_civil_day y m d) in Hz. lia. }
  split; [exact Hs|]. rewrite Hs. apply civil_of_days_from_civil.
  split; [exact Hm|]. pose proof (days_in_month_pos y m). lia.
Qed.

Lemma days_from_civil_next_month y m :
  1 <= m <= 12 ->
  days_from_civil y m 1 + days_in_month y m
  = days_from_civil (fst (month_after (y, m))) (snd (month_after (y, m))) 1.
Proof.
  unfold month_after, days_from_civil, days_in_month, is_leap_year.
  cbn [fst snd]. cbv zeta. intros Hm.
  destruct (Z.eqb_spec m 12); cbn [fst snd]; split_cmp; lia.
Qed.

(** From a month start, [next_month] is the first day of the next month. *)
Lemma next_month_civil e y m :
  civil_from_days e = (y, m, 1) ->
  civil_from_days (next_month e)
  = (fst (month_after (y, m)), snd (month_after (y, m)), 1).
Proof.
  intros E.
  pose proof (civil_from_days_valid e) as Hv.
  pose proof (days_from_civil_of_civil e) as He.
  rewrite E in Hv, He. destruct Hv as [Hm _].
  unfold next_month. rewrite E, <- He, days_from_civil_next_month by exact Hm.
  apply civil_of_days_from_civil. split.
  - unfold month_after. cbn [fst snd]. destruct (Z.eqb_spec m 12); cbn [snd]; lia.
  - pose proof (days_in_month_pos (fst (month_after (y, m))) (snd (month_after (y, m)))). lia.
Qed.

(** The days from a month start up to the next one are the days of that
    calendar month. *)
Lemma in_month_iff e y m z :
  civil_from_days e = (y, m, 1) ->
  (e <= z < next_month e <-> year_month z = (y, m)).
Proof.
  intros E.
  pose proof (civil_from_days_valid e) as Hv.
  pose proof (days_from_civil_of_civil e) as He.
  rewrite E in Hv, He. destruct Hv as [Hm _].
  unfold next_month, year_month. rewrite E. split.
  - intros Hz.
    assert (Ez : z = days_from_civil y m (z - e + 1)).
    { rewrite days_from_civil_day. lia. }
    rewrite Ez, civil_of_days_from_civil; [reflexivity|].
    split; [exact Hm | lia].
  - intros Hym.
    pose proof (civil_from_days_valid z) as Hv.
    pose proof (days_from_civil_of_civil z) as Hz.
    destruct (civil_from_days z) as [[y' m'] d']. cbn in Hym. inversion Hym; subst y' m'.
    destruct Hv as [_ Hd]. rewrite days_from_civil_day in Hz. lia.
Qed.

End CalendarFacts.

(* ================================================================== *)
(** * Month-start resampling *)

Section ResampleFacts.
Import Calendar.

Lemma sum_app l l' : sum (l ++ l') = sum l + sum l'.
Proof. unfold sum. induction l as [|x l IH]; cbn; [reflexivity | lia]. Qed.


Lemma filter_none {A} (f : A -> bool) (l : list A) :
  (forall x, In x l -> f x = false) -> filter f l = [].
Proof.
  induction l as [|x l IH]; intros H; [reflexivity|].
  cbn. rewrite (H x (or_introl eq_refl)). apply IH. intros; apply H; now right.
Qed.

Lemma filter_all {A} (f : A -> bool) (l : list A) :
  (forall x, In x l -> f x = true) -> filter f l = l.
Proof.
  induction l as [|x l IH]; intros H; [reflexivity|].
  cbn. rewrite (H x (or_introl eq_refl)). f_equal. apply IH. intros; apply H; now right.
Qed.

Lemma next_month_gt e : e + 28 <= next_month e.
Proof.
  unfold next_month. destruct (civil_from_days e) as [[y m] d].
  pose proof (days_in_month_pos y m). lia.
Qed.













(** The model on known dates: 2023-01-01 is day 19358, 2000-02-29 is day
    11016; rows of 31 January, 1 February and 3 April 2023 fall into four
    monthly bins, the empty March included. *)
Example calendar_examples :
  civil_from_days 19358 = (2023, 1, 1)
  /\ civil_from_days 11016 = (2000, 2, 29)
  /\ civil_from_days (-1) = (1969, 12, 31)
  /\ month_start 19388 = 19358
  /\ resample_MS_sum [(19450, 1); (19388, 5); (19389, 7)]
     = [(19358, 5); (19389, 7); (19417, 0); (19448, 1)].
Proof. repeat split. Qed.

End ResampleFacts.

(* ================================================================== *)
(** * The page: window, selection and charts *)

Section PageClaims.
Import Dashboard.

Lemma filter_twice {A} (f g : A -> bool) (l : list A) :
  filter f (filter g l) = filter (fun x => f x && g x) l.
Proof.
  induction l as [|x l IH]; [reflexivity|].
  cbn. destruct (g x); cbn; [|now rewrite andb_false_r].
  rewrite andb_true_r. destruct (f x); now rewrite IH.
Qed.

Lemma selected_data_filter
  (end_date : Z) (label : period_label) (selected_ticker : string)
  (full_stock_data : DataFrame) :
  selected_data end_date label selected_ticker full_stock_data
  = Some (filter (matches end_date label selected_ticker) full_stock_data).
Proof.
  unfold selected_data, filtered_data, matches, in_window.
  destruct label; cbn [period_options]; rewrite ?filter_twice; f_equal;
    apply filter_ext; intros r; now rewrite ?andb_true_r.
Qed.

(** C3.  The selection is the rows of the chosen ticker that lie in the
    window, in their order and unchanged: for "All" the whole history of
    the ticker, for a finite window the rows dated [today - windowDays] or
    later, the bound included. *)
Theorem selected_data_is_ticker_within_window
  (end_date : Z) (label : period_label) (selected_ticker : string)
  (full_stock_data : DataFrame) :
  selected_data end_date label selected_ticker full_stock_data
  = Some (filter (matches end_date label selected_ticker) full_stock_data)
  /\ selected_data end_date P_All selected_ticker full_stock_data
     = Some (filter (fun r : nat * observation => String.eqb (Ticker (snd r)) selected_ticker)
                    full_stock_data)
  /\ (forall r,
        In r (filter (matches end_date label selected_ticker) full_stock_data) <->
        In r full_stock_data
        /\ Ticker (snd r) = selected_ticker
        /\ in_window end_date label (Date (snd r)) = true)
  /\ (forall date,
        in_window end_date P_All date = true
        /\ in_window end_date P_1M date = (end_date - 30 <=? date)
        /\ in_window end_date P_6M date = (end_date - 180 <=? date)
        /\ in_window end_date P_1Y date = (end_date - 365 <=? date)
        /\ in_window end_date P_3Y date = (end_date - 1095 <=? date)
        /\ in_window end_date P_5Y date = (end_date - 1825 <=? date)).
Proof.
  split; [|split; [|split]].
  - apply selected_data_filter.
  - reflexivity.
  - intros r. rewrite filter_In. unfold matches.
    rewrite andb_true_iff, String.eqb_eq. tauto.
  - intros date. repeat split.
Qed.

(** C4.  When no row has the ticker and lies in the window, the selection
    is the empty frame, nothing is raised, and the first tab shows the
    no-data warning. *)
Theorem no_match_gives_empty_selection
  (end_date : Z) (label : period_label) (selected_ticker : string)
  (full_stock_data : DataFrame) :
  (forall r, In r full_stock_data -> matches end_date label selected_ticker r = false) ->
  selected_data end_date label selected_ticker full_stock_data = Some []
  /\ tab1 [] selected_ticker end_date = Some (tab1_warning no_data_in_period)
  /\ (forall calls,
        full_stock_data <> [] -> selected_ticker <> ""%string ->
        page_body (Some full_stock_data, calls) label selected_ticker end_date
        = loaded (calls ++ [st_success loaded_message])
            (Some (tab1_warning no_data_in_period))).
Proof.
  intros Hnone.
  assert (Hsel : selected_data end_date label selected_ticker full_stock_data = Some []).
  { rewrite selected_data_filter. now rewrite filter_none. }
  split; [exact Hsel|]. split; [reflexivity|].
  intros calls Hne Hticker.
  destruct full_stock_data as [|r0 rest]; [congruence|].
  unfold page_body. cbn [fst snd].
  destruct (String.eqb_spec selected_ticker ""); [congruence|].
  now rewrite Hsel.
Qed.

Lemma no_match_gives_empty_selection_witness :
  selected_data 19700 P_1M "MSFT"
    [(1%nat, mk_observation (bar_of 19699 "AAPL" (flat_quote 110)) 10)]
  = Some [].
Proof.
  apply (no_match_gives_empty_selection 19700 P_1M "MSFT"
           [(1%nat, mk_observation (bar_of 19699 "AAPL" (flat_quote 110)) 10)]).
  intros r [<-|[]]. reflexivity.
Defined.

Lemma volume_series_rows (df : DataFrame) :
  volume_series df
  = map (fun r : nat * observation => (Date (snd r), Volume (snd r))) df.
Proof.
  unfold volume_series, column. induction df as [|r df IH]; [reflexivity|].
  cbn. now rewrite IH.
Qed.







End PageClaims.

(* ================================================================== *)
(** * The export scripts *)

Section ExportClaims.
Import BatchExport.

(** C8, as the scripts behave.  When [pd.to_datetime] rejects the start or
    the end date, both scripts stop before any download and before any CSV
    is written.  The first script prints its message and calls [exit()]
    without a status, so the process ends with status 0; the second script
    lets the ValueError escape, so the interpreter prints the traceback
    and the process ends with status 1. *)
Theorem invalid_date_stops_before_download
  (to_datetime : string -> option Z)
  (yf_download : string -> Z -> Z -> option bool -> download_result)
  (pad : bool) (start_date_str end_date_str : string) :
  to_datetime start_date_str = None \/ to_datetime end_date_str = None ->
  first_script to_datetime yf_download pad start_date_str end_date_str
  = ([makedirs output_dir; input start_prompt; input end_prompt;
      print invalid_date_format], 0)
  /\ second_script to_datetime yf_download pad start_date_str end_date_str
     = ([input start_prompt; input end_prompt; traceback "ValueError"], 1)
  /\ existsb touches_data
       (fst (first_script to_datetime yf_download pad start_date_str end_date_str)) = false
  /\ existsb touches_data
       (fst (second_script to_datetime yf_download pad start_date_str end_date_str)) = false.
Proof.
  intros H.
  assert (E1 : first_script to_datetime yf_download pad start_date_str end_date_str
               = ([makedirs output_dir; input start_prompt; input end_prompt;
                   print invalid_date_format], 0)).
  { unfold first_script. destruct H as [H|H].
    - now rewrite H.
    - rewrite H. now destruct (to_datetime start_date_str). }
  assert (E2 : second_script to_datetime yf_download pad start_date_str end_date_str
               = ([input start_prompt; input end_prompt; traceback "ValueError"], 1)).
  { unfold second_script. destruct H as [H|H].
    - now rewrite H.
    - rewrite H. now destruct (to_datetime start_date_str). }
  rewrite E1, E2. repeat split.
Qed.

(** The first script on the text [not-a-date]: message, then exit status 0. *)
Lemma invalid_date_exit_status_witness :
  iso_date "not-a-date" = None
  /\ snd (first_script iso_date only_aapl false "not-a-date" "2023-01-05") = 0
  /\ snd (second_script iso_date only_aapl false "not-a-date" "2023-01-05") = 1.
Proof.
  split; [reflexivity|].
  destruct (invalid_date_stops_before_download iso_date only_aapl false
              "not-a-date" "2023-01-05" (or_introl eq_refl)) as (E1 & E2 & _).
  rewrite E1, E2. split; reflexivity.
Defined.

(** The first script's per-ticker step on any four rows of a provider
    frame, flat or MultiIndex: when the closes are present and their
    returns are defined, the frame appended has the eight export columns
    in order and three rows. *)
Lemma prepare_ticker_four_rows
  (pad : bool) (ticker : string) (wrap : string -> label)
  (i0 i1 i2 i3 o0 o1 o2 o3 h0 h1 h2 h3 l0 l1 l2 l3 v0 v1 v2 v3 : cell)
  (c0 c1 c2 c3 : float) :
  (wrap = Name \/ wrap = (fun field => Tuple field ticker)) ->
  is_nan c0 = false -> is_nan c1 = false -> is_nan c2 = false -> is_nan c3 = false ->
  is_nan ((c1 / c0 - 1) * 100)%float = false ->
  is_nan ((c2 / c1 - 1) * 100)%float = false ->
  is_nan ((c3 / c2 - 1) * 100)%float = false ->
  exists out,
    prepare_ticker pad ticker
      (mk_frame (Some "Date"%string) [i0; i1; i2; i3]
         [(wrap "Close"%string, [Float c0; Float c1; Float c2; Float c3]);
          (wrap "High"%string, [h0; h1; h2; h3]);
          (wrap "Low"%string, [l0; l1; l2; l3]);
          (wrap "Open"%string, [o0; o1; o2; o3]);
          (wrap "Volume"%string, [v0; v1; v2; v3])])
    = ([], Some out)
    /\ labels out = export_header
    /\ nrows out = 3%nat
    /\ getitem out "Date" = Some [i1; i2; i3].
Proof.
  intros Hwrap H0 H1 H2 H3 R1 R2 R3.
  assert (Hnan : is_nan ((c0 / nan - 1) * 100)%float = true)
    by apply return_of_missing_prev.
  eexists. unfold prepare_ticker.
  destruct Hwrap as [-> | ->]; destruct pad;
    cbv -[is_nan PrimFloat.div PrimFloat.sub PrimFloat.mul nan];
    rewrite ?H0, ?H1, ?H2, ?H3;
    cbv -[is_nan PrimFloat.div PrimFloat.sub PrimFloat.mul nan];
    rewrite ?Hnan, ?R1, ?R2, ?R3;
    cbv -[is_nan PrimFloat.div PrimFloat.sub PrimFloat.mul nan];
    repeat split; reflexivity.
Qed.

(** C9 on both scripts.  For start 2023-01-01, end 2023-01-05 and a
    provider that has four days for one ticker only, the first script
    writes the eight columns in order and three data rows; the second
    script writes the same columns and all four rows, the leading one with
    a missing Daily_Return. *)
Theorem four_day_export_rows (pad : bool) :
  (exists contents,
     written (first_script iso_date only_aapl pad "2023-01-01" "2023-01-05") = Some contents
     /\ header contents = export_header
     /\ length (body contents) = 3%nat)
  /\
  (exists contents,
     written (second_script iso_date only_aapl pad "2023-01-01" "2023-01-05") = Some contents
     /\ header contents = export_header
     /\ length (body contents) = 4%nat
     /\ nth 0 (body contents) []
        = [Timestamp 19358; Float 99; Float 101; Float 98; Float 100; Int 1000;
           Str "AAPL"; Float nan]).
Proof.
  destruct pad; split; eexists; (split; [vm_compute; reflexivity|]); repeat split.
Qed.

End ExportClaims.

(* ================================================================== *)
(** * Further facts about the code *)


(* ================================================================== *)
(** * Further properties of [get_stock_data] *)

Section NormalizeMore.
Import Dashboard.

(** The only value [is_nan] accepts is [nan]. *)
Lemma is_nan_eq (x : float) : is_nan x = true -> x = nan.
Proof.
  unfold is_nan. rewrite negb_true_iff, eqb_spec. intros H.
  apply Prim2SF_inj. rewrite Prim2SF_nan.
  destruct (Prim2SF x) as [s| s| |s m e]; try reflexivity; exfalso.
  - discriminate.
  - destruct s; discriminate.
  - unfold SFeqb, SFcompare in H.
    rewrite Z.compare_refl, Pos.compare_cont_refl in H.
    destruct s; discriminate.
Qed.

Lemma pct_change_groups_pad (df : list bar) : forall last,
  (forall b, In b df -> is_nan (Close b) = false) ->
  pct_change_groups true last df = pct_change_groups false last df.
Proof.
  induction df as [|b df IH]; intros last H; [reflexivity|].
  cbn [pct_change_groups]. rewrite (H b (or_introl eq_refl)). cbn [andb].
  f_equal. apply IH. intros b' Hb'. apply H. now right.
Qed.

(** X1.  On a table without missing closes the fill method of [pct_change] makes
    no difference: [get_stock_data] returns the same frame and shows the
    same messages whether pandas forward-fills first or not. *)
Theorem fill_method_irrelevant_without_missing_closes
  (ticker_symbols : list string) (all_data : raw_table) :
  (forall df, long_table ticker_symbols all_data = Some df ->
     forall b, In b df -> is_nan (Close b) = false) ->
  get_stock_data true ticker_symbols (Downloaded all_data)
  = get_stock_data false ticker_symbols (Downloaded all_data).
Proof.
  intros H. unfold get_stock_data.
  destruct (empty all_data); [reflexivity|].
  destruct (long_table ticker_symbols all_data) as [df|]; [|reflexivity].
  unfold assign_daily_return, groupby_pct_change.
  now rewrite (pct_change_groups_pad df (fun _ => nan) (H df eq_refl)).
Qed.

Lemma fill_method_irrelevant_witness :
  get_stock_data true ["AAPL"%string] (Downloaded closes_100_110_99)
  = get_stock_data false ["AAPL"%string] (Downloaded closes_100_110_99).
Proof.
  apply (fill_method_irrelevant_without_missing_closes ["AAPL"%string] closes_100_110_99).
  intros df Hdf b Hb. cbn in Hdf. inversion Hdf; subst df.
  destruct Hb as [<-|[<-|[<-|[]]]]; reflexivity.
Defined.

(** How many rows survive [dropna] when the rows of the tickers in [ts]
    still wait for their first close. *)
Lemma kept_rows_bound (pad : bool) (df : list bar) : forall last ts,
  NoDup ts ->
  (forall t, In t ts -> is_nan (last t) = true /\ exists b, In b df /\ Ticker b = t) ->
  (length (filter (fun r => negb (is_nan (r * 100)%float))
                  (pct_change_groups pad last df)) + length ts <= length df)%nat.
Proof.
  induction df as [|b df IH]; intros last ts Hnd Hts.
  - destruct ts as [|t ts]; [cbn; lia|].
    destruct (Hts t (or_introl eq_refl)) as [_ (b & [] & _)].
  - cbn [pct_change_groups filter length].
    set (cur := if pad && is_nan (Close b) then last (Ticker b) else Close b).
    set (last' := fun t => if String.eqb t (Ticker b) then cur else last t).
    destruct (in_dec string_dec (Ticker b) ts) as [Hin|Hnin].
    + (* the row opens a group still waiting: it is dropped *)
      destruct (Hts _ Hin) as [Hnan _].
      assert (Hdrop : is_nan ((cur / last (Ticker b) - 1) * 100)%float = true).
      { rewrite (is_nan_eq _ Hnan). apply return_of_missing_prev. }
      rewrite Hdrop. cbn [negb].
      pose proof (IH last' (remove string_dec (Ticker b) ts)) as IH'.
      assert (Hlen : (length ts = S (length (remove string_dec (Ticker b) ts)))%nat).
      { clear - Hnd Hin. induction ts as [|t ts IHts]; [destruct Hin|].
        inversion Hnd as [|? ? Hnt Hnd']; subst. cbn [remove].
        destruct (string_dec (Ticker b) t) as [->|Hne].
        - rewrite notin_remove by exact Hnt. reflexivity.
        - cbn [length]. f_equal. apply IHts; [exact Hnd'|].
          destruct Hin as [->|Hin]; [congruence | exact Hin]. }
      rewrite Hlen. cbn [length].
      enough (length (filter (fun r => negb (is_nan (r * 100)%float))
                        (pct_change_groups pad last' df))
              + length (remove string_dec (Ticker b) ts) <= length df)%nat by lia.
      apply IH'.
      * clear - Hnd. induction ts as [|t ts IHts]; [constructor|].
        inversion Hnd; subst. cbn [remove].
        destruct (string_dec (Ticker b) t); [now apply IHts|].
        constructor; [|now apply IHts].
        intros Hc. apply in_remove in Hc. tauto.
      * intros t Ht. apply in_remove in Ht as [Ht Hne].
        destruct (Hts t Ht) as [Hn (b' & [-> | Hb'] & Ht')]; [congruence|].
        split; [|now exists b'].
        unfold last'. destruct (String.eqb_spec t (Ticker b)); [congruence | exact Hn].
    + pose proof (IH last' ts Hnd) as IH'.
      assert (length (filter (fun r => negb (is_nan (r * 100)%float))
                        (pct_change_groups pad last' df)) + length ts <= length df)%nat.
      { apply IH'. intros t Ht.
        destruct (Hts t Ht) as [Hn (b' & [-> | Hb'] & Ht')]; [congruence|].
        split; [|now exists b'].
        unfold last'. destruct (String.eqb_spec t (Ticker b)); [congruence | exact Hn]. }
      destruct (negb _); cbn [length]; lia.
Qed.

Lemma length_dropna_reset_index (l : list observation) :
  length (dropna (reset_index l))
  = length (filter (fun o => negb (is_nan (Daily_Return o))) l).
Proof.
  unfold dropna, reset_index. generalize 0%nat as s.
  induction l as [|o l IH]; intros s; [reflexivity|].
  cbn [length seq combine filter snd].
  destruct (negb (is_nan (Daily_Return o))); cbn [length]; now rewrite IH.
Qed.

Lemma length_kept_returns (df : list bar) : forall rs,
  length rs = length df ->
  length (filter (fun o => negb (is_nan (Daily_Return o)))
                 (Series.zip_with mk_observation df (Series.times100 rs)))
  = length (filter (fun r => negb (is_nan (r * 100)%float)) rs).
Proof.
  unfold Series.zip_with, Series.times100.
  induction df as [|b df IH]; intros [|r rs] Hlen; try discriminate; [reflexivity|].
  cbn [map combine filter fst snd Daily_Return].
  injection Hlen as Hlen.
  destruct (negb (is_nan (r * 100)%float)); cbn [length]; now rewrite IH.
Qed.

(** X2.  Every ticker of the raw table costs at least one row: for any set of
    distinct tickers that occur in the long table, the returned frame has
    at most as many rows as the table has, less one per ticker. *)
Theorem normalize_loses_a_row_per_ticker
  (pad : bool) (ticker_symbols : list string) (all_data : raw_table)
  (df : list bar) (out : DataFrame) (ts : list string) :
  long_table ticker_symbols all_data = Some df ->
  fst (get_stock_data pad ticker_symbols (Downloaded all_data)) = Some out ->
  NoDup ts ->
  (forall t, In t ts -> In t (map Ticker df)) ->
  (length out + length ts <= length df)%nat.
Proof.
  intros Hdf Hout Hnd Hts. unfold get_stock_data in Hout.
  destruct (empty all_data); [discriminate|]. rewrite Hdf in Hout.
  cbn in Hout. inversion Hout; subst out; clear Hout.
  rewrite length_dropna_reset_index. unfold assign_daily_return.
  rewrite length_kept_returns by apply pct_change_groups_length.
  apply kept_rows_bound; [exact Hnd|].
  intros t Ht. split; [reflexivity|].
  apply Hts in Ht. apply in_map_iff in Ht as (b & Hb & Hin). now exists b.
Qed.

Lemma normalize_loses_a_row_witness :
  exists out,
    fst (get_stock_data false ["AAPL"%string] (Downloaded closes_100_110_99)) = Some out
    /\ (length out + 1 <= 3)%nat.
Proof.
  eexists. split; [reflexivity|].
  apply (normalize_loses_a_row_per_ticker false ["AAPL"%string] closes_100_110_99
           _ _ ["AAPL"%string] eq_refl eq_refl).
  - repeat constructor. intros [].
  - intros t [<-|[]]. left. reflexivity.
Defined.

Lemma kept_labels_sorted {A} (P : nat * A -> bool) (l : list A) : forall s,
  StronglySorted lt (map fst (filter P (combine (seq s (length l)) l)))
  /\ Forall (fun i => s <= i)%nat (map fst (filter P (combine (seq s (length l)) l))).
Proof.
  induction l as [|a l IH]; intros s; [split; constructor|].
  cbn [length seq combine filter].
  destruct (IH (S s)) as [Hs Hall].
  assert (Hall' : Forall (fun i => s < i)%nat
                    (map fst (filter P (combine (seq (S s) (length l)) l)))).
  { eapply Forall_impl; [|exact Hall]. cbn. intros; lia. }
  destruct (P (s, a)); cbn [map fst].
  - split.
    + constructor; assumption.
    + constructor; [lia|]. eapply Forall_impl; [|exact Hall']. cbn. intros; lia.
  - split; [exact Hs|]. eapply Forall_impl; [|exact Hall']. cbn. intros; lia.
Qed.

(** X3.  The returned frame keeps the order of the raw table: its index labels
    are strictly increasing positions of the long table, so no label occurs
    twice and every label is below the table's length. *)
Theorem normalize_keeps_table_order
  (pad : bool) (ticker_symbols : list string) (all_data : raw_table) (out : DataFrame) :
  fst (get_stock_data pad ticker_symbols (Downloaded all_data)) = Some out ->
  StronglySorted lt (map fst out)
  /\ exists df, long_table ticker_symbols all_data = Some df
               /\ forall i, In i (map fst out) -> (i < length df)%nat.
Proof.
  intros Hout. unfold get_stock_data in Hout.
  destruct (empty all_data); [discriminate|].
  destruct (long_table ticker_symbols all_data) as [df|]; [|discriminate].
  cbn in Hout. inversion Hout; subst out; clear Hout. split.
  - apply (kept_labels_sorted _ (assign_daily_return pad df) 0%nat).
  - exists df. split; [reflexivity|]. intros i Hi.
    apply in_map_iff in Hi as ([i' o] & <- & Hin). cbn [fst].
    apply in_normalized in Hin as (b & _ & Hb & _).
    apply nth_error_Some. now rewrite Hb.
Qed.

Lemma normalize_keeps_table_order_witness :
  exists out,
    fst (get_stock_data true ["AAPL"%string] (Downloaded closes_100_110_99)) = Some out
    /\ StronglySorted lt (map fst out).
Proof.
  eexists. split; [reflexivity|].
  apply (normalize_keeps_table_order true ["AAPL"%string] closes_100_110_99 _ eq_refl).
Defined.

End NormalizeMore.


(* ================================================================== *)
(** * Further properties of the page *)

Section PageMore.
Import Dashboard Selection.

Lemma in_unique (l : list string) t : In t (unique l) <-> In t l.
Proof.
  induction l as [|x l IH]; [tauto|]. cbn [unique]. split.
  - intros [->|H]; [now left|]. apply filter_In in H as [H _]. right. now apply IH.
  - intros [->|H]; [now left|].
    destruct (String.eqb_spec t x) as [->|Hne]; [now left|].
    right. apply filter_In. split; [now apply IH|].
    apply negb_true_iff. now apply String.eqb_neq.
Qed.

Lemma NoDup_unique (l : list string) : NoDup (unique l).
Proof.
  induction l as [|x l IH]; [constructor|]. cbn [unique]. constructor.
  - intros H. apply filter_In in H as [_ H]. now rewrite String.eqb_refl in H.
  - now apply NoDup_filter.
Qed.

Lemma in_insert x l t : In t (insert x l) <-> t = x \/ In t l.
Proof.
  induction l as [|y l IH]; cbn [insert].
  - cbn. intuition.
  - destruct (String.leb x y); cbn [In]; [intuition|]. rewrite IH. intuition.
Qed.

Lemma in_sorted l t : In t (sorted l) <-> In t l.
Proof.
  unfold sorted. induction l as [|x l IH]; [tauto|].
  cbn [fold_right]. rewrite in_insert, IH. cbn. intuition.
Qed.

Lemma NoDup_insert x l : ~ In x l -> NoDup l -> NoDup (insert x l).
Proof.
  induction l as [|y l IH]; intros Hx Hnd; cbn [insert].
  - repeat constructor. intros [].
  - destruct (String.leb x y); [now constructor|].
    inversion Hnd as [|? ? Hy Hnd']; subst. constructor.
    + rewrite in_insert. intros [->|H]; [apply Hx; now left | contradiction].
    + apply IH; [|exact Hnd']. intros H. apply Hx. now right.
Qed.

Lemma NoDup_sorted l : NoDup l -> NoDup (sorted l).
Proof.
  unfold sorted. induction 1 as [|x l Hx Hnd IH]; [constructor|].
  cbn [fold_right]. apply NoDup_insert; [|exact IH].
  fold (sorted l). now rewrite in_sorted.
Qed.

Lemma Sorted_insert x l :
  Sorted (fun a b => String.leb a b = true) l ->
  Sorted (fun a b => String.leb a b = true) (insert x l).
Proof.
  induction 1 as [|y l Hs IH Hhd]; cbn [insert]; [repeat constructor|].
  destruct (String.leb x y) eqn:E.
  - constructor; [now constructor|]. now constructor.
  - constructor; [exact IH|].
    assert (Hyx : String.leb y x = true)
      by (destruct (String.leb_total x y) as [H|H]; [congruence | exact H]).
    destruct l as [|z l]; cbn [insert]; [now constructor|].
    destruct (String.leb x z); constructor; [exact Hyx|].
    now inversion Hhd.
Qed.

Lemma Sorted_sorted l : Sorted (fun a b => String.leb a b = true) (sorted l).
Proof.
  unfold sorted. induction l as [|x l IH]; [constructor|].
  cbn [fold_right]. now apply Sorted_insert.
Qed.

Lemma in_available_tickers (full_stock_data : DataFrame) (t : string) :
  In t (available_tickers full_stock_data) <->
  exists r, In r full_stock_data /\ Ticker (snd r) = t.
Proof.
  unfold available_tickers. rewrite in_sorted, in_unique. unfold column.
  rewrite in_map_iff. split; intros (r & H1 & H2); exists r; tauto.
Qed.

(** X4.  The drop-down offers each ticker of the loaded frame exactly once, in
    ascending order, and nothing else. *)
Theorem available_tickers_sorted_distinct_complete (full_stock_data : DataFrame) :
  Sorted (fun a b => String.leb a b = true) (available_tickers full_stock_data)
  /\ NoDup (available_tickers full_stock_data)
  /\ forall t, In t (available_tickers full_stock_data) <->
               exists r, In r full_stock_data /\ Ticker (snd r) = t.
Proof.
  split; [apply Sorted_sorted|].
  split; [apply NoDup_sorted, NoDup_unique|].
  apply in_available_tickers.
Qed.

(** X5.  With the period "All", a ticker picked from the drop-down always has
    rows: the first tab shows the figures, never the no-data warning, and
    nothing is raised. *)
Theorem picked_ticker_has_charts_for_all
  (full_stock_data : DataFrame) (calls : list st_call) (picked : nat)
  (selected_ticker : string) (end_date : Z) :
  selectbox (available_tickers full_stock_data) picked = Some selected_ticker ->
  selected_ticker <> ""%string ->
  exists selected fig_candle fig_volume,
    selected_data end_date P_All selected_ticker full_stock_data = Some selected
    /\ selected <> []
    /\ page_body (Some full_stock_data, calls) P_All selected_ticker end_date
       = loaded (calls ++ [st_success loaded_message])
           (Some (kpis_and_charts fig_candle fig_volume)).
Proof.
  intros Hpick Hne. unfold selectbox in Hpick. apply nth_error_In in Hpick.
  apply in_available_tickers in Hpick as (r & Hr & Ht).
  set (selected := filter (fun r : nat * observation =>
                             String.eqb (Ticker (snd r)) selected_ticker) full_stock_data).
  assert (Hin : In r selected).
  { apply filter_In. split; [exact Hr|]. now apply String.eqb_eq. }
  assert (Hsel : selected_data end_date P_All selected_ticker full_stock_data = Some selected)
    by reflexivity.
  destruct selected as [|r0 rest] eqn:E; [destruct Hin|].
  destruct (create_candlestick_and_volume_charts (r0 :: rest) selected_ticker end_date)
    as [[c v]|] eqn:Ec; [|discriminate Ec].
  exists (r0 :: rest), c, v. split; [exact Hsel|]. split; [discriminate|].
  unfold page_body. cbn [fst snd].
  destruct full_stock_data as [|f0 frest]; [destruct Hr|].
  destruct (String.eqb_spec selected_ticker ""); [contradiction|].
  rewrite Hsel. unfold tab1. now rewrite Ec.
Qed.

Lemma picked_ticker_has_charts_witness :
  selectbox (available_tickers three_years) 0 = Some "SPY"%string
  /\ exists selected,
       selected_data 19730 P_All "SPY" three_years = Some selected /\ selected <> [].
Proof.
  split; [reflexivity|].
  destruct (picked_ticker_has_charts_for_all three_years [] 0 "SPY" 19730 eq_refl)
    as (selected & _ & _ & H1 & H2 & _); [discriminate|].
  exists selected. split; assumption.
Defined.

Lemma in_window_within (end_date : Z) (a b : period_label) (date : Z) :
  period_within a b = true ->
  in_window end_date a date = true -> in_window end_date b date = true.
Proof.
  unfold period_within, in_window.
  destruct (period_options a) as [n|], (period_options b) as [m|];
    try reflexivity; try discriminate.
  rewrite !Z.leb_le. lia.
Qed.

(** X6.  Widening the period never loses a row: when period [a] reaches back no
    further than period [b], the selection for [a] is the selection for
    [b] cut down to the window of [a]; 1-M, 6-M, 1-Y, 3-Y, 5-Y, All is such
    a chain. *)
Theorem wider_period_keeps_rows
  (end_date : Z) (a b : period_label) (selected_ticker : string)
  (full_stock_data : DataFrame) :
  period_within a b = true ->
  exists narrow wide,
    selected_data end_date a selected_ticker full_stock_data = Some narrow
    /\ selected_data end_date b selected_ticker full_stock_data = Some wide
    /\ narrow = filter (fun r : nat * observation => in_window end_date a (Date (snd r))) wide
    /\ incl narrow wide.
Proof.
  intros Hab. rewrite !selected_data_filter. do 2 eexists.
  split; [reflexivity|]. split; [reflexivity|].
  assert (E : filter (matches end_date a selected_ticker) full_stock_data
              = filter (fun r : nat * observation => in_window end_date a (Date (snd r)))
                  (filter (matches end_date b selected_ticker) full_stock_data)).
  { rewrite filter_twice. apply filter_ext. intros r. unfold matches.
    destruct (String.eqb (Ticker (snd r)) selected_ticker); cbn [andb];
      [|now rewrite andb_false_r].
    destruct (in_window end_date a (Date (snd r))) eqn:Ea; [|reflexivity].
    now rewrite (in_window_within end_date a b _ Hab Ea). }
  split; [exact E|]. rewrite E. intros r Hr. now apply filter_In in Hr.
Qed.

Lemma wider_period_keeps_rows_witness :
  period_within P_1M P_6M = true
  /\ period_within P_6M P_1Y = true
  /\ period_within P_1Y P_3Y = true
  /\ period_within P_3Y P_5Y = true
  /\ period_within P_5Y P_All = true
  /\ exists narrow wide,
       selected_data 19730 P_1M "SPY" three_years = Some narrow
       /\ selected_data 19730 P_3Y "SPY" three_years = Some wide
       /\ incl narrow wide.
Proof.
  repeat (split; [reflexivity|]).
  destruct (wider_period_keeps_rows 19730 P_1M P_3Y "SPY" three_years eq_refl)
    as (narrow & wide & H1 & H2 & _ & H3).
  exists narrow, wide. repeat split; assumption.
Defined.

(** ** The monthly bars *)

Lemma month_starts_past last : forall fuel e, last < e -> Calendar.month_starts fuel e last = [].
Proof.
  intros [|fuel] e H; [reflexivity|]. cbn [Calendar.month_starts].
  destruct (Z.leb_spec e last); [lia | reflexivity].
Qed.

Lemma month_starts_length last : forall fuel e y m,
  Calendar.civil_from_days e = (y, m, 1) ->
  e <= last -> last - e < Z.of_nat fuel ->
  Z.of_nat (length (Calendar.month_starts fuel e last))
  = month_index last - (12 * y + m) + 1.
Proof.
  induction fuel as [|fuel IH]; intros e y m E Hle Hfuel; [lia|].
  cbn [Calendar.month_starts]. destruct (Z.leb_spec e last); [|lia].
  cbn [length]. pose proof (next_month_gt e) as Hn.
  destruct (Z.lt_ge_cases last (Calendar.next_month e)) as [Hin|Hout].
  - rewrite month_starts_past by exact Hin.
    assert (Hym : Calendar.year_month last = (y, m))
      by (apply (in_month_iff e y m last E); lia).
    unfold month_index. rewrite Hym. cbn [fst snd length]. lia.
  - rewrite Nat2Z.inj_succ.
    rewrite (IH _ _ _ (next_month_civil e y m E)) by lia.
    unfold Calendar.month_after. cbn [fst snd].
    destruct (Z.eqb_spec m 12); cbn [fst snd]; lia.
Qed.

(** X7.  The monthly figure has one bar for every calendar month from the month
    of the earliest row to the month of the latest, months without rows
    included. *)
Theorem monthly_bars_count
  (df : DataFrame) (ticker : string) (end_date d : Z) (ds : list Z) :
  column Date df = d :: ds ->
  730 < time_delta_days d ds ->
  exists fig_candle fig_volume,
    create_candlestick_and_volume_charts df ticker end_date = Some (fig_candle, fig_volume)
    /\ Z.of_nat (length (b_x fig_volume))
       = month_index (Calendar.maximum d ds) - month_index (Calendar.minimum d ds) + 1
    /\ length (b_y fig_volume) = length (b_x fig_volume).
Proof.
  intros Hd Hspan. unfold create_candlestick_and_volume_charts. rewrite Hd.
  destruct (Z.gtb_spec (time_delta_days d ds) 730) as [_|Hle]; [|lia].
  do 2 eexists. split; [reflexivity|]. cbn [b_x b_y].
  split; [|now rewrite !length_map].
  unfold Calendar.resample_MS_sum.
  assert (Hs : map fst (volume_series df) = d :: ds).
  { rewrite volume_series_rows, map_map. cbn [fst]. exact Hd. }
  rewrite Hs, map_map. cbn [fst]. rewrite map_id.
  destruct (Calendar.civil_from_days (Calendar.minimum d ds)) as [[y m] dd] eqn:E.
  destruct (month_start_civil _ y m dd E) as [_ Ems].
  pose proof (month_start_le (Calendar.minimum d ds)).
  unfold time_delta_days in Hspan.
  rewrite (month_starts_length _ _ _ y m Ems) by lia.
  unfold month_index, Calendar.year_month. rewrite E. cbn [fst snd]. lia.
Qed.

Lemma monthly_bars_count_witness :
  column Date three_years = 18631 :: [18660; 19158; 19724]
  /\ 730 < time_delta_days 18631 [18660; 19158; 19724]
  /\ exists fig_candle fig_volume,
       create_candlestick_and_volume_charts three_years "SPY" 19730
       = Some (fig_candle, fig_volume)
       /\ length (b_x fig_volume) = 37%nat.
Proof.
  split; [reflexivity|]. split; [reflexivity|].
  destruct (monthly_bars_count three_years "SPY" 19730 18631 [18660; 19158; 19724]
              eq_refl eq_refl) as (c & v & E & Hn & _).
  exists c, v. split; [exact E|].
  apply Nat2Z.inj. rewrite Hn. reflexivity.
Defined.






(** Past 2^63 the int64 sum does wrap: two volumes of 2^62 add up to
    -2^63. *)
Example sum_int64_overflow :
  sum_int64 [2 ^ 62; 2 ^ 62] = - 2 ^ 63 /\ Calendar.sum [2 ^ 62; 2 ^ 62] = 2 ^ 63.
Proof. split; reflexivity. Qed.



(** X9.  The page body never lets an exception out of the first tab: the
    [timedelta(days="max")] that "All" would hit is never evaluated, and
    the figures are only built from a frame with rows. *)
Theorem page_never_raises
  (returned : option DataFrame * list st_call) (current_period : period_label)
  (selected_ticker : string) (end_date : Z) (calls : list st_call) :
  page_body returned current_period selected_ticker end_date <> loaded calls None.
Proof.
  unfold page_body.
  destruct (fst returned) as [[|r0 rest]|]; try discriminate.
  destruct (String.eqb selected_ticker ""); [discriminate|].
  rewrite selected_data_filter. unfold tab1.
  destruct (filter _ _) as [|x xs]; [discriminate|].
  unfold create_candlestick_and_volume_charts. cbn [column map]. discriminate.
Qed.

End PageMore.


(* ================================================================== *)
(** * Further properties of the export scripts *)

Section ExportMore.
Import BatchExport Runs.

Variable to_datetime : string -> option Z.
Variable yf_download : string -> Z -> Z -> option bool -> download_result.
Variable pad : bool.

Lemma downloads_app (a b : list event) : downloads (a ++ b) = downloads a ++ downloads b.
Proof. unfold downloads. apply flat_map_app. Qed.

Lemma prepare_ticker_prints (ticker : string) (df : DataFrame) :
  exists msgs, fst (prepare_ticker pad ticker df) = map print msgs.
Proof.
  unfold prepare_ticker.
  destruct (empty df); [now exists [no_data_found ticker]|].
  destruct (_ <? _)%nat; [now exists [columns_missing ticker]|].
  destruct (close_returns _ _); [|now exists [error_downloading ticker type_error]].
  destruct (dropna _ _); [now exists [] | now exists [error_downloading ticker "Daily_Return"]].
Qed.

Lemma downloads_prints (msgs : list message) : downloads (map print msgs) = [].
Proof. induction msgs; [reflexivity | exact IHmsgs]. Qed.

Lemma export_ticker_downloads s e ticker :
  downloads (fst (export_ticker yf_download pad s e ticker)) = [ticker].
Proof.
  unfold export_ticker.
  destruct (yf_download ticker s e (Some true)) as [df|err]; [|reflexivity].
  destruct (prepare_ticker_prints ticker df) as [msgs Hm].
  destruct (prepare_ticker pad ticker df) as [events appended]. cbn [fst] in *. subst events.
  rewrite downloads_app, downloads_prints. reflexivity.
Qed.

Lemma export_loop_downloads s e tickers :
  downloads (fst (export_loop yf_download pad s e tickers)) = tickers.
Proof.
  induction tickers as [|t rest IH]; [reflexivity|]. cbn [export_loop].
  pose proof (export_ticker_downloads s e t) as Ht.
  destruct (export_ticker yf_download pad s e t) as [events appended].
  destruct (export_loop yf_download pad s e rest) as [events' frames].
  cbn [fst] in *. rewrite downloads_app, Ht, IH. reflexivity.
Qed.

Lemma second_ticker_downloads s e ticker :
  downloads (fst (second_ticker yf_download pad s e ticker)) = [ticker].
Proof.
  unfold second_ticker.
  destruct (yf_download ticker s e None) as [df|err]; [|reflexivity].
  destruct (empty df); [reflexivity|].
  destruct (close_returns pad _); reflexivity.
Qed.

Lemma second_loop_downloads s e tickers :
  downloads (fst (second_loop yf_download pad s e tickers)) = tickers.
Proof.
  induction tickers as [|t rest IH]; [reflexivity|]. cbn [second_loop].
  pose proof (second_ticker_downloads s e t) as Ht.
  destruct (second_ticker yf_download pad s e t) as [events appended].
  destruct (second_loop yf_download pad s e rest) as [events' frames].
  cbn [fst] in *. rewrite downloads_app, Ht, IH. reflexivity.
Qed.

(** X10.  With readable dates each script asks the provider for every ticker of
    its list, once and in order, whatever the provider answers: a download
    that raises, an empty frame or a frame without the needed columns
    skips that ticker only. *)
Theorem every_ticker_is_requested
  (start_date_str end_date_str : string) (start_date end_date : Z) :
  to_datetime start_date_str = Some start_date ->
  to_datetime end_date_str = Some end_date ->
  downloads (fst (first_script to_datetime yf_download pad start_date_str end_date_str))
  = ["AAPL"; "GOOGL"; "MSFT"]%string
  /\ downloads (fst (second_script to_datetime yf_download pad start_date_str end_date_str))
     = ["AAPL"; "GOOGL"; "MSFT"; "TSLA"]%string.
Proof.
  intros Hs He. unfold first_script, second_script. rewrite Hs, He. split.
  - pose proof (export_loop_downloads start_date end_date first_ticker_symbols) as H.
    destruct (export_loop yf_download pad start_date end_date first_ticker_symbols)
      as [events frames]. cbn [fst] in H.
    destruct frames; cbn [fst]; rewrite !downloads_app, H; reflexivity.
  - pose proof (second_loop_downloads start_date end_date second_ticker_symbols) as H.
    destruct (second_loop yf_download pad start_date end_date second_ticker_symbols)
      as [events frames]. cbn [fst] in H.
    destruct frames; cbn [fst]; rewrite !downloads_app, H; reflexivity.
Qed.

End ExportMore.

Lemma every_ticker_is_requested_witness :
  BatchExport.iso_date "2023-01-01" = Some 19358
  /\ BatchExport.iso_date "2023-01-05" = Some 19362
  /\ Runs.downloads
       (fst (BatchExport.first_script BatchExport.iso_date BatchExport.only_aapl true
               "2023-01-01" "2023-01-05"))
     = ["AAPL"; "GOOGL"; "MSFT"]%string.
Proof.
  split; [reflexivity|]. split; [reflexivity|].
  apply (every_ticker_is_requested BatchExport.iso_date BatchExport.only_aapl true
           "2023-01-01" "2023-01-05" 19358 19362 eq_refl eq_refl).
Defined.


(* ================================================================== *)
(** * Frames with named columns: reading back what was set *)

Section FrameFacts.
Import BatchExport Runs.

Lemma existsb_over_map {A B} (f : B -> bool) (g : A -> B) (l : list A) :
  existsb f (map g l) = existsb (fun x => f (g x)) l.
Proof. induction l as [|x l IH]; [reflexivity|]. cbn. now rewrite IH. Qed.

Lemma key_matches_new_label (df : DataFrame) (key : string) :
  key_matches key (new_label df key) = true.
Proof.
  unfold key_matches, new_label. destruct (is_multi df); cbn; apply String.eqb_refl.
Qed.

Lemma key_matches_other (key key' : string) (l : label) :
  key <> key' -> key_matches key l = true -> key_matches key' l = false.
Proof.
  unfold key_matches. intros Hne H. apply String.eqb_eq in H.
  apply String.eqb_neq. congruence.
Qed.

Lemma find_none_app {A} (f : A -> bool) (l l' : list A) :
  existsb f l = false -> find f (l ++ l') = find f l'.
Proof.
  induction l as [|x l IH]; [reflexivity|]. cbn.
  destruct (f x); [discriminate|]. exact IH.
Qed.

Lemma find_some_app {A} (f : A -> bool) (l l' : list A) :
  existsb f l = true -> find f (l ++ l') = find f l.
Proof.
  induction l as [|x l IH]; [discriminate|]. cbn.
  destruct (f x); [reflexivity|]. exact IH.
Qed.

(** Reading a column back after setting it gives the values set. *)
Lemma getitem_setitem (df : DataFrame) (key : string) (values : list cell) :
  getitem (setitem df key values) key = Some values.
Proof.
  unfold getitem, setitem, has_column, labels. cbn [columns].
  rewrite existsb_over_map.
  destruct (existsb (fun c => key_matches key (fst c)) (columns df)) eqn:H.
  - induction (columns df) as [|c cols IH]; [discriminate|].
    cbn [map find existsb] in *.
    destruct (key_matches key (fst c)) eqn:E; cbn [fst]; rewrite E; [reflexivity|].
    apply IH. exact H.
  - rewrite find_none_app by exact H. cbn [find fst].
    now rewrite key_matches_new_label.
Qed.

(** Setting one column leaves the columns under every other key alone. *)
Lemma columns_under_setitem (df : DataFrame) (key key' : string) (values : list cell) :
  key <> key' ->
  columns_under (setitem df key values) key' = columns_under df key'.
Proof.
  intros Hne. unfold columns_under, setitem. cbn [columns].
  destruct (has_column df key).
  - induction (columns df) as [|c cols IH]; [reflexivity|].
    cbn [map filter]. destruct (key_matches key (fst c)) eqn:E; cbn [fst].
    + rewrite (key_matches_other key key' _ Hne E). exact IH.
    + destruct (key_matches key' (fst c)); now rewrite IH.
  - rewrite filter_app. cbn [filter fst].
    rewrite (key_matches_other key key' _ Hne (key_matches_new_label df key)).
    apply app_nil_r.
Qed.

Lemma getitem_under (df : DataFrame) (key : string) :
  getitem df key = option_map snd (hd_error (columns_under df key)).
Proof.
  unfold getitem, columns_under. f_equal.
  induction (columns df) as [|c cols IH]; [reflexivity|].
  cbn [find filter]. destruct (key_matches key (fst c)); [reflexivity | exact IH].
Qed.

Lemma has_column_under (df : DataFrame) (key : string) :
  has_column df key = negb (Nat.eqb (length (columns_under df key)) 0).
Proof.
  unfold has_column, labels, columns_under. rewrite existsb_over_map.
  induction (columns df) as [|c cols IH]; [reflexivity|].
  cbn [existsb filter]. destruct (key_matches key (fst c)); [reflexivity | exact IH].
Qed.

Lemma getitem_setitem_other (df : DataFrame) (key key' : string) (values : list cell) :
  key <> key' -> getitem (setitem df key values) key' = getitem df key'.
Proof.
  intros Hne. now rewrite !getitem_under, columns_under_setitem.
Qed.

Lemma columns_under_flatten (df : DataFrame) (key : string) :
  columns_under (flatten_columns df) key
  = map (fun c => (Name (top_level (fst c)), snd c)) (columns_under df key).
Proof.
  unfold columns_under, flatten_columns. cbn [columns].
  induction (columns df) as [|c cols IH]; [reflexivity|].
  cbn [map filter fst].
  change (key_matches key (Name (top_level (fst c)))) with (key_matches key (fst c)).
  destruct (key_matches key (fst c)); cbn [map]; now rewrite IH.
Qed.

Lemma keep_rows_present (values : list cell) :
  forallb (fun c => negb (is_missing c))
          (keep_rows (map (fun c => negb (is_missing c)) values) values) = true.
Proof.
  unfold keep_rows. induction values as [|c values IH]; [reflexivity|].
  cbn [map combine filter fst]. destruct (negb (is_missing c)) eqn:E; [|exact IH].
  cbn [map snd forallb]. now rewrite E, IH.
Qed.

End FrameFacts.


Section PrepareTicker.
Import BatchExport Runs.
Variable pad : bool.

Lemma filter_shorter {A} (f : A -> bool) (l : list A) (x : A) :
  In x l -> f x = false -> (length (filter f l) < length l)%nat.
Proof.
  induction l as [|y l IH]; intros Hin Hx; [destruct Hin|].
  cbn [filter length]. pose proof (filter_length_le f l).
  destruct Hin as [->|Hin].
  - rewrite Hx. lia.
  - specialize (IH Hin Hx). destruct (f y); cbn [length]; lia.
Qed.

Lemma required_is_not_ticker (key : string) :
  In key required_financial_cols -> "Ticker"%string <> key.
Proof.
  intros [<-|[<-|[<-|[<-|[<-|[]]]]]]; discriminate.
Qed.

Lemma has_column_prepared (df : DataFrame) (v : cell) (key : string) :
  In key required_financial_cols ->
  has_column (flatten_columns (setitem_scalar df "Ticker" v)) key = has_column df key.
Proof.
  intros Hk. rewrite !has_column_under, columns_under_flatten, length_map.
  unfold setitem_scalar. now rewrite columns_under_setitem by now apply required_is_not_ticker.
Qed.

(** X12.  A provider frame with rows that lacks one of Open, High, Low, Close,
    Volume makes the first script skip the ticker: it prints the warning,
    appends nothing and raises nothing. *)
Theorem missing_column_skips_ticker (ticker : string) (df : DataFrame) (key : string) :
  empty df = false ->
  In key required_financial_cols ->
  has_column df key = false ->
  prepare_ticker pad ticker df = ([print (columns_missing ticker)], None).
Proof.
  intros Hne Hk Hmiss. unfold prepare_ticker. rewrite Hne.
  assert (Hlt : (length (filter (has_column (flatten_columns
                    (setitem_scalar df "Ticker" (Str ticker)))) required_financial_cols)
                 < length required_financial_cols)%nat).
  { apply (filter_shorter _ _ key Hk). now rewrite has_column_prepared. }
  apply Nat.ltb_lt in Hlt. now rewrite Hlt.
Qed.

Lemma find_map_values (g : list cell -> list cell) (key : string)
  (cols : list (label * list cell)) :
  find (fun c => key_matches key (fst c)) (map (fun c => (fst c, g (snd c))) cols)
  = option_map (fun c => (fst c, g (snd c))) (find (fun c => key_matches key (fst c)) cols).
Proof.
  induction cols as [|c cols IH]; [reflexivity|].
  cbn [map find fst]. destruct (key_matches key (fst c)); [reflexivity | exact IH].
Qed.

Lemma getitem_reset_index (df : DataFrame) (key : string) :
  (forall f name, index_name df = Some name -> key_matches key (new_label f name) = false) ->
  index_name df <> None ->
  getitem (reset_index df) key = getitem df key.
Proof.
  intros Hk Hn. unfold reset_index, getitem. cbn [columns find fst].
  destruct (index_name df) as [name|]; [|congruence].
  now rewrite (Hk df name eq_refl).
Qed.

Lemma getitem_map_values (g : list cell -> list cell) (key : string)
  (name : option string) (idx : list cell) (df : DataFrame) :
  getitem (mk_frame name idx (map (fun c => (fst c, g (snd c))) (columns df))) key
  = option_map g (getitem df key).
Proof.
  unfold getitem. cbn [columns]. rewrite find_map_values.
  now destruct (find _ (columns df)).
Qed.

(** X13.  Every frame the first script appends has a Daily_Return in each row:
    the step reports nothing, and no cell of the column is missing. *)
Theorem appended_frame_has_every_return
  (ticker : string) (df : DataFrame) (events : list event) (out : DataFrame) :
  index_name df = Some "Date"%string ->
  prepare_ticker pad ticker df = (events, Some out) ->
  events = []
  /\ exists returns,
       getitem out "Daily_Return" = Some returns
       /\ forallb (fun c => negb (is_missing c)) returns = true.
Proof.
  intros Hidx H. unfold prepare_ticker in H.
  destruct (empty df); [discriminate|].
  destruct (_ <? _)%nat; [discriminate|].
  destruct (close_returns pad _) as [r|]; [|discriminate].
  match type of H with
  | context [dropna (setitem ?f _ _) _] => set (df3 := f) in *
  end.
  assert (Hname : index_name df3 = Some "Date"%string) by exact Hidx.
  clearbody df3.
  unfold dropna in H. rewrite getitem_setitem in H.
  injection H as <- <-. split; [reflexivity|].
  exists (keep_rows (map (fun c => negb (is_missing c)) r) r).
  split; [|apply keep_rows_present].
  rewrite getitem_reset_index.
  - change (getitem
              (mk_frame (index_name df3)
                 (keep_rows (map (fun c => negb (is_missing c)) r) (index df3))
                 (map (fun c => (fst c, keep_rows (map (fun c => negb (is_missing c)) r) (snd c)))
                      (columns (setitem df3 "Daily_Return" r))))
              "Daily_Return"
            = Some (keep_rows (map (fun c => negb (is_missing c)) r) r)).
    rewrite (getitem_map_values (keep_rows (map (fun c => negb (is_missing c)) r))).
    now rewrite getitem_setitem.
  - cbn [index_name]. rewrite Hname. intros f name Hn. injection Hn as <-.
    unfold new_label. now destruct (is_multi f).
  - cbn [index_name]. now rewrite Hname.
Qed.

End PrepareTicker.

Lemma missing_column_skips_ticker_witness :
  BatchExport.prepare_ticker true "AAPL"
    (BatchExport.mk_frame (Some "Date"%string) [BatchExport.Timestamp 19358]
       [(BatchExport.Name "Open", [BatchExport.Float 99]);
        (BatchExport.Name "Close", [BatchExport.Float 100])])
  = ([BatchExport.print (BatchExport.columns_missing "AAPL")], None).
Proof.
  apply (missing_column_skips_ticker true "AAPL" _ "Volume"%string).
  - reflexivity.
  - right; right; right; right; left; reflexivity.
  - reflexivity.
Defined.

Lemma appended_frame_has_every_return_witness :
  exists returns,
    option_map (fun out => BatchExport.getitem out "Daily_Return")
      (snd (BatchExport.prepare_ticker false "AAPL" BatchExport.four_days))
    = Some (Some returns)
    /\ forallb (fun c => negb (BatchExport.is_missing c)) returns = true.
Proof.
  destruct (BatchExport.prepare_ticker false "AAPL" BatchExport.four_days)
    as [events [out|]] eqn:E; [|vm_compute in E; discriminate E].
  destruct (appended_frame_has_every_return false "AAPL" BatchExport.four_days events out
              eq_refl E) as (_ & returns & Hg & Hall).
  exists returns. cbn [snd option_map]. now rewrite Hg.
Defined.


Section ExportHeader.
Import BatchExport Runs.
Variable pad : bool.

Lemma under_prepared (df : DataFrame) (v : cell) (key : string) (c : label * list cell) :
  In key required_financial_cols ->
  columns_under df key = [c] ->
  columns_under (flatten_columns (setitem_scalar df "Ticker" v)) key = [(Name key, snd c)].
Proof.
  intros Hk Hc. rewrite columns_under_flatten. unfold setitem_scalar.
  rewrite columns_under_setitem by now apply required_is_not_ticker.
  rewrite Hc. cbn [map].
  assert (Hin : In c (columns_under df key)) by (rewrite Hc; now left).
  unfold columns_under in Hin. apply filter_In in Hin as [_ Hm].
  unfold key_matches in Hm. apply String.eqb_eq in Hm. now rewrite Hm.
Qed.

(** X14.  Whatever order the provider's columns come in, and whatever further
    columns it sends along, the frame the first script appends has the
    columns Date, Open, High, Low, Close, Volume, Ticker, Daily_Return in
    that order, provided each of the five price fields is there once. *)
Theorem appended_frame_has_export_columns
  (ticker : string) (df : DataFrame) (events : list event) (out : DataFrame) :
  index_name df = Some "Date"%string ->
  (forall key, In key required_financial_cols -> exists c, columns_under df key = [c]) ->
  prepare_ticker pad ticker df = (events, Some out) ->
  labels out = export_header.
Proof.
  intros Hidx Hone H.
  set (df1 := flatten_columns (setitem_scalar df "Ticker" (Str ticker))).
  assert (Hu : forall key, In key required_financial_cols ->
                 exists vals, columns_under df1 key = [(Name key, vals)]).
  { intros key Hk. destruct (Hone key Hk) as [c Hc].
    exists (snd c). now apply under_prepared. }
  destruct (Hu "Open"%string) as [vo Ho]; [cbn; tauto|].
  destruct (Hu "High"%string) as [vh Hh]; [cbn; tauto|].
  destruct (Hu "Low"%string) as [vl Hl]; [cbn; tauto|].
  destruct (Hu "Close"%string) as [vc Hc]; [cbn; tauto|].
  destruct (Hu "Volume"%string) as [vv Hv]; [cbn; tauto|].
  assert (Hex : filter (has_column df1) required_financial_cols = required_financial_cols).
  { apply filter_all. intros key Hk. destruct (Hu key Hk) as [vals Hk'].
    now rewrite has_column_under, Hk'. }
  assert (Hsel : select df1 required_financial_cols
                 = mk_frame (Some "Date"%string) (index df1)
                     [(Name "Open", vo); (Name "High", vh); (Name "Low", vl);
                      (Name "Close", vc); (Name "Volume", vv)]).
  { unfold select. f_equal; [exact Hidx|].
    cbn [flat_map required_financial_cols].
    change (filter (fun c => key_matches ?k (fst c)) (columns df1))
      with (columns_under df1 k).
    fold (columns_under df1 "Open") (columns_under df1 "High") (columns_under df1 "Low")
         (columns_under df1 "Close") (columns_under df1 "Volume").
    now rewrite Ho, Hh, Hl, Hc, Hv. }
  unfold prepare_ticker in H. fold df1 in H. rewrite Hex, Hsel in H.
  destruct (empty df); [discriminate|]. clearbody df1.
  cbn [Nat.ltb Nat.leb length required_financial_cols] in H.
  unfold close_returns, setitem_scalar, setitem, getitem in H.
  cbn -[to_floats Series.pct_change Series.times100 keep_rows] in H.
  destruct (to_floats vc) as [closes|]; [|discriminate].
  unfold dropna, getitem in H.
  cbn -[Series.pct_change Series.times100 keep_rows] in H.
  injection H as <- <-. reflexivity.
Qed.

End ExportHeader.

Lemma appended_frame_has_export_columns_witness :
  exists out,
    snd (BatchExport.prepare_ticker true "MSFT" Runs.shuffled_days) = Some out
    /\ BatchExport.labels out = BatchExport.export_header.
Proof.
  destruct (BatchExport.prepare_ticker true "MSFT" Runs.shuffled_days)
    as [events [out|]] eqn:E; [|vm_compute in E; discriminate E].
  exists out. split; [reflexivity|].
  apply (appended_frame_has_export_columns true "MSFT" Runs.shuffled_days events out
           eq_refl); [|exact E].
  intros key [<-|[<-|[<-|[<-|[<-|[]]]]]]; eexists; reflexivity.
Defined.


Section ExportEdges.
Import BatchExport Runs.

Variable to_datetime : string -> option Z.
Variable yf_download : string -> Z -> Z -> option bool -> download_result.
Variable pad : bool.

Lemma to_floats_length (values : list cell) : forall xs,
  to_floats values = Some xs -> length xs = length values.
Proof.
  induction values as [|c values IH]; intros xs H; cbn [to_floats] in H.
  - now inversion H.
  - destruct (match c with Float x => Some x | Int n => Some (float_of_Z n) | _ => None end)
      as [x|]; [|discriminate].
    destruct (to_floats values) as [xs'|]; [|discriminate].
    inversion H; subst. cbn [length]. f_equal. now apply IH.
Qed.

Lemma getitem_in (df : DataFrame) (key : string) (values : list cell) :
  getitem df key = Some values -> exists l, In (l, values) (columns df).
Proof.
  unfold getitem. intros H.
  destruct (find _ (columns df)) as [[l v]|] eqn:E; [|discriminate].
  cbn in H. inversion H; subst. exists l. now apply find_some in E.
Qed.

Lemma leading_return_missing (closes : list float) :
  closes <> [] ->
  exists rest,
    map Float (Series.times100 (Series.pct_change pad closes)) = Float nan :: rest.
Proof.
  intros Hne. destruct closes as [|x xs]; [congruence|].
  rewrite pct_change_scan. cbn [Series.pct_scan Series.times100 map].
  rewrite div_nan_r, sub_nan_l, mul_nan_l. eexists. reflexivity.
Qed.

(** X15.  The second script keeps every row the provider returned for a ticker,
    the leading one included, and that row's Daily_Return is missing. *)
Theorem second_script_keeps_leading_row
  (start_date end_date : Z) (ticker : string)
  (df : DataFrame) (events : list event) (out : DataFrame) :
  yf_download ticker start_date end_date None = returns df ->
  well_formed df = true ->
  second_ticker yf_download pad start_date end_date ticker = (events, Some out) ->
  index out = index df
  /\ exists rest, getitem out "Daily_Return" = Some (Float nan :: rest).
Proof.
  intros Hdl Hwf H. unfold second_ticker in H. rewrite Hdl in H.
  destruct (empty df) eqn:Hne; [discriminate|].
  destruct (close_returns pad _) as [r|] eqn:Hr; [|discriminate].
  injection H as _ <-. split; [reflexivity|].
  rewrite getitem_setitem.
  unfold close_returns, setitem_scalar in Hr.
  rewrite getitem_setitem_other in Hr by discriminate.
  destruct (getitem df "Close") as [values|] eqn:Hg; [|discriminate].
  destruct (to_floats values) as [closes|] eqn:Hf; [|discriminate].
  inversion Hr; subst r; clear Hr.
  destruct (leading_return_missing closes) as [rest Hrest]; [|now exists rest; rewrite Hrest].
  apply to_floats_length in Hf. apply getitem_in in Hg as [l Hin].
  unfold well_formed in Hwf. rewrite forallb_forall in Hwf.
  specialize (Hwf _ Hin). cbn [snd] in Hwf. apply Nat.eqb_eq in Hwf.
  unfold empty in Hne. apply orb_false_iff in Hne as [Hrows _].
  apply Nat.eqb_neq in Hrows. intros ->. cbn in Hf. lia.
Qed.

Lemma export_loop_no_write s e tickers :
  filter is_write (fst (export_loop yf_download pad s e tickers)) = [].
Proof.
  induction tickers as [|t rest IH]; [reflexivity|]. cbn [export_loop].
  assert (Ht : filter is_write (fst (export_ticker yf_download pad s e t)) = []).
  { unfold export_ticker.
    destruct (yf_download t s e (Some true)) as [df|err]; [|reflexivity].
    destruct (prepare_ticker_prints pad t df) as [msgs Hm].
    destruct (prepare_ticker pad t df) as [events appended]. cbn [fst] in *. subst events.
    cbn [app filter is_write]. induction msgs; [reflexivity | exact IHmsgs]. }
  destruct (export_ticker yf_download pad s e t) as [events appended].
  destruct (export_loop yf_download pad s e rest) as [events' frames].
  cbn [fst] in *. now rewrite filter_app, Ht, IH.
Qed.

Lemma second_loop_no_write s e tickers :
  filter is_write (fst (second_loop yf_download pad s e tickers)) = [].
Proof.
  induction tickers as [|t rest IH]; [reflexivity|]. cbn [second_loop].
  assert (Ht : filter is_write (fst (second_ticker yf_download pad s e t)) = []).
  { unfold second_ticker.
    destruct (yf_download t s e None) as [df|err]; [|reflexivity].
    destruct (empty df); [reflexivity|].
    destruct (close_returns pad _); reflexivity. }
  destruct (second_ticker yf_download pad s e t) as [events appended].
  destruct (second_loop yf_download pad s e rest) as [events' frames].
  cbn [fst] in *. now rewrite filter_app, Ht, IH.
Qed.

Lemma export_loop_nothing s e tickers :
  (forall t adj, answers_nothing (yf_download t s e adj) = true) ->
  snd (export_loop yf_download pad s e tickers) = []
  /\ snd (second_loop yf_download pad s e tickers) = [].
Proof.
  intros Hfail. induction tickers as [|t rest [IH1 IH2]]; [split; reflexivity|].
  cbn [export_loop second_loop].
  assert (H1 : snd (export_ticker yf_download pad s e t) = None).
  { unfold export_ticker. specialize (Hfail t (Some true)).
    destruct (yf_download t s e (Some true)) as [df|err]; [|reflexivity].
    cbn in Hfail. unfold prepare_ticker. now rewrite Hfail. }
  assert (H2 : snd (second_ticker yf_download pad s e t) = None).
  { unfold second_ticker. specialize (Hfail t None).
    destruct (yf_download t s e None) as [df|err]; [|reflexivity].
    cbn in Hfail. now rewrite Hfail. }
  destruct (export_ticker yf_download pad s e t) as [ev1 a1].
  destruct (second_ticker yf_download pad s e t) as [ev2 a2].
  destruct (export_loop yf_download pad s e rest) as [ev1' f1].
  destruct (second_loop yf_download pad s e rest) as [ev2' f2].
  cbn [snd] in *. subst. split; reflexivity.
Qed.

(** X11.  When every download raises or comes back empty, neither script writes
    a file: each ends by printing that nothing was downloaded, with exit
    status 0. *)
Theorem nothing_written_when_every_download_fails
  (start_date_str end_date_str : string) (start_date end_date : Z) :
  to_datetime start_date_str = Some start_date ->
  to_datetime end_date_str = Some end_date ->
  (forall t adj, answers_nothing (yf_download t start_date end_date adj) = true) ->
  let first := first_script to_datetime yf_download pad start_date_str end_date_str in
  let second := second_script to_datetime yf_download pad start_date_str end_date_str in
  written first = None
  /\ last (fst first) (makedirs "") = print nothing_downloaded
  /\ snd first = 0
  /\ written second = None
  /\ last (fst second) (makedirs "") = print no_data_downloaded
  /\ snd second = 0.
Proof.
  intros Hs He Hfail first second. subst first second.
  unfold first_script, second_script, written. rewrite Hs, He.
  destruct (export_loop_nothing start_date end_date first_ticker_symbols Hfail) as [H1 _].
  destruct (export_loop_nothing start_date end_date second_ticker_symbols Hfail) as [_ H2].
  pose proof (export_loop_no_write start_date end_date first_ticker_symbols) as W1.
  pose proof (second_loop_no_write start_date end_date second_ticker_symbols) as W2.
  destruct (export_loop yf_download pad start_date end_date first_ticker_symbols)
    as [ev1 f1].
  destruct (second_loop yf_download pad start_date end_date second_ticker_symbols)
    as [ev2 f2].
  cbn [fst snd] in *. subst f1 f2. cbn [fst snd].
  change (fun e => match e with write_csv _ _ => true | _ => false end) with is_write.
  repeat split.
  - now rewrite !filter_app, W1.
  - rewrite app_assoc. apply last_last.
  - now rewrite !filter_app, W2.
  - rewrite app_assoc. apply last_last.
Qed.

End ExportEdges.


Lemma second_script_keeps_leading_row_witness :
  exists events out rest,
    BatchExport.second_ticker BatchExport.only_aapl false 19358 19362 "AAPL"
    = (events, Some out)
    /\ BatchExport.index out = BatchExport.index BatchExport.four_days
    /\ BatchExport.getitem out "Daily_Return" = Some (BatchExport.Float nan :: rest).
Proof.
  destruct (BatchExport.second_ticker BatchExport.only_aapl false 19358 19362 "AAPL")
    as [events [out|]] eqn:E; [|vm_compute in E; discriminate E].
  destruct (second_script_keeps_leading_row BatchExport.only_aapl false 19358 19362 "AAPL"
              BatchExport.four_days events out eq_refl eq_refl E) as (Hi & rest & Hg).
  exists events, out, rest. repeat split; assumption.
Defined.

Lemma nothing_written_witness :
  BatchExport.written
    (BatchExport.first_script BatchExport.iso_date Runs.always_raises true
       "2023-01-01" "2023-01-05") = None
  /\ BatchExport.written
       (BatchExport.second_script BatchExport.iso_date Runs.always_raises true
          "2023-01-01" "2023-01-05") = None.
Proof.
  destruct (nothing_written_when_every_download_fails BatchExport.iso_date
              Runs.always_raises true "2023-01-01" "2023-01-05" 19358 19362
              eq_refl eq_refl (fun _ _ => eq_refl)) as (H1 & _ & _ & H2 & _).
  split; assumption.
Defined.

(* ================================================================== *)
(** * The sidebar *)

Section PeriodButtons.
Import Dashboard Sidebar.

(** X16.  After the buttons are drawn the stored period is the one clicked, or
    else the one stored before, or else "All"; and in a run without a
    click exactly the stored period's button is primary. *)
Theorem period_after_buttons (stored clicked : option period_label) :
  snd (sidebar_periods stored clicked)
  = match clicked, stored with
    | Some c, _ => c
    | None, Some p => p
    | None, None => P_All
    end
  /\ map fst (fst (sidebar_periods stored clicked)) = period_labels
  /\ primaries (fst (sidebar_periods stored None))
     = [match stored with Some p => p | None => P_All end].
Proof.
  destruct stored as [[]|], clicked as [[]|]; repeat split.
Qed.

(** X17.  In the run where a period other than the stored one is clicked, the
    clicked button is still drawn secondary: the only button that can be
    primary is the one of the period stored before, and it is primary
    exactly when it comes before the clicked one in the list. *)
Theorem clicked_button_is_drawn_secondary (stored clicked : period_label) :
  stored <> clicked ->
  snd (sidebar_periods (Some stored) (Some clicked)) = clicked
  /\ In (clicked, secondary) (fst (sidebar_periods (Some stored) (Some clicked)))
  /\ primaries (fst (sidebar_periods (Some stored) (Some clicked)))
     = if (position stored <? position clicked)%nat then [stored] else [].
Proof.
  intros Hne.
  destruct stored, clicked; try congruence; vm_compute; intuition.
Qed.

Lemma clicked_button_is_drawn_secondary_witness :
  P_All <> P_1M
  /\ fst (sidebar_periods (Some P_All) (Some P_1M))
     = [(P_1M, secondary); (P_6M, secondary); (P_1Y, secondary);
        (P_3Y, secondary); (P_5Y, secondary); (P_All, secondary)]
  /\ primaries (fst (sidebar_periods (Some P_All) (Some P_1M))) = [].
Proof.
  split; [discriminate|]. split; [reflexivity|].
  apply (clicked_button_is_drawn_secondary P_All P_1M). discriminate.
Defined.

End PeriodButtons.


Section TickerBox.
Import Dashboard Sidebar.

Lemma upper_char_fixed (c : ascii) : upper_char (upper_char c) = upper_char c.
Proof. destruct c as [[] [] [] [] [] [] [] []]; reflexivity. Qed.

Lemma isspace_upper_char (c : ascii) : isspace (upper_char c) = isspace c.
Proof. destruct c as [[] [] [] [] [] [] [] []]; reflexivity. Qed.

Lemma comma_upper_char (c : ascii) : Ascii.eqb (upper_char c) comma = Ascii.eqb c comma.
Proof. destruct c as [[] [] [] [] [] [] [] []]; reflexivity. Qed.

Lemma all_chars_impl (f g : ascii -> bool) (s : string) :
  (forall c, f c = true -> g c = true) -> all_chars f s = true -> all_chars g s = true.
Proof.
  intros Hfg. induction s as [|c s IH]; [reflexivity|]. cbn [all_chars].
  rewrite !andb_true_iff. intros [Hc Hs]. split; [now apply Hfg | now apply IH].
Qed.

Lemma all_chars_lstrip (f : ascii -> bool) (s : string) :
  all_chars f s = true -> all_chars f (lstrip s) = true.
Proof.
  induction s as [|c s IH]; [reflexivity|]. cbn [lstrip all_chars].
  intros H. destruct (isspace c); [|exact H].
  apply andb_true_iff in H as [_ H]. now apply IH.
Qed.

Lemma all_chars_rstrip (f : ascii -> bool) (s : string) :
  all_chars f s = true -> all_chars f (rstrip s) = true.
Proof.
  induction s as [|c s IH]; [reflexivity|]. cbn [rstrip all_chars].
  intros H. apply andb_true_iff in H as [Hc Hs]. specialize (IH Hs).
  destruct (rstrip s) as [|c' kept].
  - destruct (isspace c); [reflexivity|]. cbn [all_chars]. now rewrite Hc.
  - cbn [all_chars] in *. now rewrite Hc, IH.
Qed.

Lemma all_chars_strip (f : ascii -> bool) (s : string) :
  all_chars f s = true -> all_chars f (strip s) = true.
Proof. intros H. now apply all_chars_lstrip, all_chars_rstrip. Qed.

Lemma all_chars_split (f : ascii -> bool) (sep : ascii) (s : string) :
  all_chars f s = true -> forall piece, In piece (split sep s) -> all_chars f piece = true.
Proof.
  induction s as [|c s IH]; cbn [split all_chars].
  - intros _ piece [<-|[]]. reflexivity.
  - intros H piece Hin. apply andb_true_iff in H as [Hc Hs]. specialize (IH Hs).
    destruct (Ascii.eqb c sep).
    + destruct Hin as [<-|Hin]; [reflexivity | now apply IH].
    + destruct (split sep s) as [|p ps].
      * destruct Hin as [<-|[]]. cbn [all_chars]. now rewrite Hc.
      * destruct Hin as [<-|Hin].
        -- cbn [all_chars]. rewrite Hc. apply IH. now left.
        -- apply IH. now right.
Qed.

(** No piece of a split holds the separator. *)
Lemma split_pieces_free (sep : ascii) (s : string) :
  forall piece, In piece (split sep s) ->
    all_chars (fun c => negb (Ascii.eqb c sep)) piece = true.
Proof.
  induction s as [|c s IH]; cbn [split].
  - intros piece [<-|[]]. reflexivity.
  - intros piece Hin. destruct (Ascii.eqb c sep) eqn:E.
    + destruct Hin as [<-|Hin]; [reflexivity | now apply IH].
    + destruct (split sep s) as [|p ps].
      * destruct Hin as [<-|[]]. cbn [all_chars]. now rewrite E.
      * destruct Hin as [<-|Hin].
        -- cbn [all_chars]. rewrite E. apply IH. now left.
        -- apply IH. now right.
Qed.

Lemma all_chars_upper (s : string) :
  all_chars (fun c => Ascii.eqb (upper_char c) c) (upper s) = true.
Proof.
  induction s as [|c s IH]; [reflexivity|]. cbn [upper all_chars].
  now rewrite upper_char_fixed, Ascii.eqb_refl, IH.
Qed.

Lemma upper_fixed (s : string) :
  all_chars (fun c => Ascii.eqb (upper_char c) c) s = true -> upper s = s.
Proof.
  induction s as [|c s IH]; [reflexivity|]. cbn [upper all_chars].
  intros H. apply andb_true_iff in H as [Hc Hs].
  apply Ascii.eqb_eq in Hc. now rewrite Hc, IH.
Qed.

Lemma rstrip_suffix (c : ascii) (s : string) :
  rstrip (String c s) = String c s -> rstrip s = s.
Proof.
  cbn [rstrip]. destruct (rstrip s) as [|c' kept].
  - destruct (isspace c); [discriminate|]. intros H. now inversion H.
  - intros H. now inversion H.
Qed.

Lemma rstrip_lstrip (s : string) : rstrip s = s -> rstrip (lstrip s) = lstrip s.
Proof.
  induction s as [|c s IH]; [reflexivity|]. intros H. cbn [lstrip].
  destruct (isspace c); [|exact H]. apply IH. now apply rstrip_suffix in H.
Qed.

Lemma rstrip_fixed (s : string) : rstrip (rstrip s) = rstrip s.
Proof.
  induction s as [|c s IH]; [reflexivity|]. cbn [rstrip].
  destruct (rstrip s) as [|c' kept] eqn:E.
  - destruct (isspace c) eqn:Ec; [reflexivity|]. cbn [rstrip]. now rewrite Ec.
  - cbn [rstrip]. cbn [rstrip] in IH. now rewrite IH.
Qed.

Lemma lstrip_fixed (s : string) : lstrip (lstrip s) = lstrip s.
Proof.
  induction s as [|c s IH]; [reflexivity|]. cbn [lstrip].
  destruct (isspace c) eqn:E; [exact IH|]. cbn [lstrip]. now rewrite E.
Qed.

Lemma strip_fixed (s : string) : strip (strip s) = strip s.
Proof.
  unfold strip. rewrite (rstrip_lstrip (rstrip s)) by apply rstrip_fixed.
  apply lstrip_fixed.
Qed.

Lemma ticker_symbols_clean (ticker_input : string) (ticker : string) :
  In ticker (ticker_symbols ticker_input) -> clean ticker.
Proof.
  unfold ticker_symbols, clean. intros Hin.
  apply in_flat_map in Hin as (piece & Hp & Hin).
  assert (Ht : ticker = strip piece /\ ticker <> EmptyString).
  { destruct (strip piece) as [|c t]; [destruct Hin|].
    destruct Hin as [<-|[]]. split; [reflexivity | discriminate]. }
  destruct Ht as [-> Hne]. split; [exact Hne|].
  split; [apply strip_fixed|]. split.
  - apply upper_fixed, all_chars_strip.
    apply (all_chars_split _ comma (upper ticker_input)); [apply all_chars_upper | exact Hp].
  - apply all_chars_strip. now apply (split_pieces_free comma (upper ticker_input)).
Qed.

(** X18.  Every symbol read from a box of ASCII text is non-empty, has no white
    space at either end, no lower-case letter and no comma. *)
Theorem ticker_symbols_are_clean (ticker_input : string) (ticker : string) :
  isascii ticker_input = true ->
  In ticker (ticker_symbols ticker_input) ->
  ticker <> EmptyString
  /\ strip ticker = ticker
  /\ upper ticker = ticker
  /\ all_chars (fun c => negb (Ascii.eqb c comma)) ticker = true.
Proof. intros _. apply ticker_symbols_clean. Qed.

(** The default text of the box reads as its five symbols. *)
Example default_tickers_read :
  ticker_symbols "AAPL, GOOGL, MSFT, TSLA, SPY"
  = ["AAPL"; "GOOGL"; "MSFT"; "TSLA"; "SPY"]%string
  /\ ticker_symbols " aapl, msft ,,spy " = ["AAPL"; "MSFT"; "SPY"]%string.
Proof. split; reflexivity. Qed.

Lemma ticker_symbols_are_clean_witness :
  In "MSFT"%string (ticker_symbols " aapl, msft ,,spy ")
  /\ strip "MSFT" = "MSFT"%string /\ upper "MSFT" = "MSFT"%string.
Proof.
  assert (Hin : In "MSFT"%string (ticker_symbols " aapl, msft ,,spy "))
    by (right; left; reflexivity).
  split; [exact Hin|].
  destruct (ticker_symbols_are_clean " aapl, msft ,,spy " "MSFT" eq_refl Hin)
    as (_ & H1 & H2 & _).
  split; assumption.
Defined.

Lemma rstrip_empty (s : string) :
  rstrip s = EmptyString <-> all_chars isspace s = true.
Proof.
  induction s as [|c s IH]; [tauto|]. cbn [rstrip all_chars]. rewrite andb_true_iff.
  destruct (rstrip s) as [|c' kept].
  - destruct (isspace c).
    + split; [intros _; split; [reflexivity | now apply IH] | reflexivity].
    + split; [discriminate | intros [H _]; discriminate].
  - split; [discriminate|]. intros [_ H]. apply IH in H. discriminate.
Qed.

Lemma lstrip_empty (s : string) :
  lstrip s = EmptyString <-> all_chars isspace s = true.
Proof.
  induction s as [|c s IH]; [tauto|]. cbn [lstrip all_chars].
  destruct (isspace c); cbn [andb]; [exact IH|]. split; discriminate.
Qed.

Lemma rstrip_blank (s : string) :
  all_chars isspace (rstrip s) = true -> rstrip s = EmptyString.
Proof.
  induction s as [|c s IH]; [reflexivity|]. cbn [rstrip].
  destruct (rstrip s) as [|c' kept].
  - destruct (isspace c) eqn:E; [reflexivity|]. cbn [all_chars]. now rewrite E.
  - cbn [all_chars]. intros H. apply andb_true_iff in H as [_ H].
    specialize (IH H). discriminate.
Qed.

Lemma strip_empty (s : string) :
  strip s = EmptyString <-> all_chars isspace s = true.
Proof.
  unfold strip. rewrite lstrip_empty. split.
  - intros H. now apply rstrip_empty, rstrip_blank.
  - intros H. apply rstrip_empty in H. now rewrite H.
Qed.

Lemma split_all_blank (s : string) :
  (forall piece, In piece (split comma s) -> all_chars isspace piece = true) <->
  all_chars (fun c => Ascii.eqb c comma || isspace c) s = true.
Proof.
  induction s as [|c s IH]; cbn [split all_chars].
  - split; [reflexivity|]. intros _ piece [<-|[]]. reflexivity.
  - rewrite andb_true_iff, <- IH. destruct (Ascii.eqb c comma) eqn:E; cbn [orb].
    + split.
      * intros H. split; [reflexivity|]. intros piece Hp. apply H. now right.
      * intros [_ H] piece [<-|Hp]; [reflexivity | now apply H].
    + destruct (split comma s) as [|p ps] eqn:Es.
      * split.
        -- intros H. specialize (H _ (or_introl eq_refl)). cbn [all_chars] in H.
           apply andb_true_iff in H as [H _]. split; [exact H|]. intros piece [].
        -- intros [Hc _] piece [<-|[]]. cbn [all_chars]. now rewrite Hc.
      * split.
        -- intros H. pose proof (H _ (or_introl eq_refl)) as H0. cbn [all_chars] in H0.
           apply andb_true_iff in H0 as [Hc Hp]. split; [exact Hc|].
           intros piece [<-|Hin]; [exact Hp|]. apply H. now right.
        -- intros [Hc H] piece [<-|Hin].
           ++ cbn [all_chars]. rewrite Hc. apply H. now left.
           ++ apply H. now right.
Qed.

Lemma all_chars_upper_blank (s : string) :
  all_chars (fun c => Ascii.eqb c comma || isspace c) (upper s)
  = all_chars (fun c => Ascii.eqb c comma || isspace c) s.
Proof.
  induction s as [|c s IH]; [reflexivity|]. cbn [upper all_chars].
  now rewrite comma_upper_char, isspace_upper_char, IH.
Qed.

Lemma flat_map_nil {A B} (f : A -> list B) (l : list A) :
  flat_map f l = [] <-> forall x, In x l -> f x = [].
Proof.
  induction l as [|x l IH]; cbn [flat_map]; [split; [intros _ ? [] | reflexivity]|].
  split.
  - intros H. apply app_eq_nil in H as [Hx Hl]. intros y [<-|Hy]; [exact Hx|].
    now apply IH.
  - intros H. rewrite (H x (or_introl eq_refl)). apply IH. intros; apply H; now right.
Qed.

(** X19.  A box of ASCII text yields no symbol exactly when the text is nothing
    but commas and white space (the empty text included); the page then
    asks for tickers and loads nothing. *)
Theorem no_symbols_iff_blank_input (ticker_input : string) :
  isascii ticker_input = true ->
  (ticker_symbols ticker_input = [] <->
   all_chars (fun c => Ascii.eqb c comma || isspace c) ticker_input = true)
  /\ (ticker_symbols ticker_input = [] ->
      forall pad download current_period selected_ticker end_date,
        page pad (ticker_symbols ticker_input) download current_period selected_ticker
          end_date
        = enter_tickers [st_info "Please enter one or more ticker symbols to begin."]).
Proof.
  intros _. split.
  - unfold ticker_symbols. rewrite flat_map_nil, <- all_chars_upper_blank, <- split_all_blank.
    split; intros H piece Hp; specialize (H piece Hp).
    + apply strip_empty. now destruct (strip piece).
    + apply strip_empty in H. now rewrite H.
  - intros H. now rewrite H.
Qed.

Lemma no_symbols_iff_blank_input_witness :
  ticker_symbols " , ,, " = []
  /\ page true (ticker_symbols " , ,, ") (DownloadRaised "unused") P_All "" 19358
     = enter_tickers [st_info "Please enter one or more ticker symbols to begin."].
Proof.
  split; [reflexivity|].
  apply (proj2 (no_symbols_iff_blank_input " , ,, " eq_refl) eq_refl).
Defined.

Lemma upper_app (a b : string) : upper (a ++ b) = (upper a ++ upper b)%string.
Proof. induction a as [|c a IH]; [reflexivity|]. cbn. now rewrite IH. Qed.

Lemma split_free (s : string) :
  all_chars (fun c => negb (Ascii.eqb c comma)) s = true -> split comma s = [s].
Proof.
  induction s as [|c s IH]; [reflexivity|]. cbn [all_chars split].
  intros H. apply andb_true_iff in H as [Hc Hs]. apply negb_true_iff in Hc.
  now rewrite Hc, IH.
Qed.

Lemma split_app_comma (a b : string) :
  all_chars (fun c => negb (Ascii.eqb c comma)) a = true ->
  split comma (a ++ String comma b) = a :: split comma b.
Proof.
  induction a as [|c a IH]; [reflexivity|]. cbn [all_chars].
  intros H. apply andb_true_iff in H as [Hc Ha]. apply negb_true_iff in Hc.
  cbn [append split]. now rewrite Hc, IH.
Qed.

Lemma upper_join (l : list string) :
  Forall clean l -> upper (join "," l) = join "," l.
Proof.
  induction 1 as [|t l Ht Hl IH]; [reflexivity|].
  destruct Ht as (_ & _ & Hu & _). cbn [join]. destruct l as [|t' l]; [exact Hu|].
  rewrite !upper_app, Hu, IH. reflexivity.
Qed.

Lemma split_join (l : list string) :
  Forall clean l -> l <> [] -> split comma (join "," l) = l.
Proof.
  induction 1 as [|t l Ht Hl IH]; [congruence|]. intros _.
  destruct Ht as (_ & _ & _ & Hf). cbn [join]. destruct l as [|t' l].
  - now apply split_free.
  - change ("," ++ join "," (t' :: l))%string with (String comma (join "," (t' :: l))).
    rewrite split_app_comma by exact Hf. f_equal. apply IH. discriminate.
Qed.

(** X20.  Reading ASCII text is stable: writing the symbols read back into the
    box, joined by commas, and reading again gives the same symbols. *)
Theorem ticker_symbols_round_trip (ticker_input : string) :
  isascii ticker_input = true ->
  ticker_symbols (join "," (ticker_symbols ticker_input)) = ticker_symbols ticker_input.
Proof.
  intros _.
  assert (Hclean : Forall clean (ticker_symbols ticker_input)).
  { rewrite Forall_forall. intros t Ht. now apply ticker_symbols_clean in Ht. }
  revert Hclean. generalize (ticker_symbols ticker_input) as l. intros l Hl.
  unfold ticker_symbols at 1. rewrite upper_join by exact Hl.
  destruct l as [|t l]; [reflexivity|].
  rewrite split_join by (exact Hl || discriminate).
  induction Hl as [|x xs Hx Hxs IH]; [reflexivity|].
  cbn [flat_map]. destruct Hx as (Hne & Hs & _). rewrite Hs.
  destruct x as [|c x]; [congruence|]. cbn [app]. f_equal. exact IH.
Qed.

Lemma ticker_symbols_round_trip_witness :
  isascii " aapl, msft ,,spy " = true
  /\ join "," (ticker_symbols " aapl, msft ,,spy ") = "AAPL,MSFT,SPY"%string
  /\ ticker_symbols "AAPL,MSFT,SPY" = ticker_symbols " aapl, msft ,,spy ".
Proof.
  split; [reflexivity|]. split; [reflexivity|].
  apply (ticker_symbols_round_trip " aapl, msft ,,spy " eq_refl).
Defined.

End TickerBox.
